(** * AviationLib: flight, weather, airport and fuel calculations

    A shallow embedding of the Python package [aviation_lib]
    (flight_calculator.py, weather_analyzer.py, airport_manager.py,
    fuel_calculator.py) and the properties established about it.

    Numbers.  The library computes with Python [float]s, which are IEEE 754
    binary64 values; they are embedded as Rocq's primitive floats, whose
    [+ - * /], [sqrt] and comparisons are the same correctly rounded
    operations.  Integer literals of the source that meet a float operand
    ([100], [1013], [30], ...) and integer results that stand for a float
    ([return 0]) are written as the float of the same value.  Arguments are
    floats, as the annotations of the source say.

    Errors.  A Python call either returns a value or raises; functions that
    can raise return [res A].  A float division raises [ZeroDivisionError]
    when the divisor is zero.

    Strings.  A Python [str] is embedded as a [string] holding its UTF-8
    bytes.  [str.upper] and [str.lower] are embedded on the ASCII letters;
    bytes outside ASCII are left as they are.

    The math library.  [math.sin], [math.cos], [math.asin] and the float
    power come from the platform's C library and have no bit-exact
    specification; the distance functions take them as a parameter
    ([PyMath.MathLib]).  [math.radians] and [math.sqrt] are exact and are
    defined.

    The file has two parts: the embedding, one module per source file, and
    the properties, preceded by the facts about binary64 arithmetic that
    they need. *)

From Stdlib Require Import ZArith QArith Qpower Qabs Lqa Floats String Ascii List Sorted
  Permutation Lia.
From stdpp Require Import base strings gmap.
Import ListNotations.

#[local] Set Warnings "-inexact-float".
#[local] Open Scope string_scope.

(** ** Python results *)

Inductive exn : Type :=
| ValueError (msg : string)
| ZeroDivisionError (msg : string)
| OverflowError (msg : string)
| KeyError (key : string).

Inductive res (A : Type) : Type :=
| Ok (a : A)
| Raise (e : exn).
Arguments Ok {A} a.
Arguments Raise {A} e.

Definition bind {A B : Type} (r : res A) (k : A -> res B) : res B :=
  match r with
  | Ok a => k a
  | Raise e => Raise e
  end.

Notation "'let*' x ':=' r 'in' k" := (bind r (fun x => k))
  (at level 10, x name, r at level 100, k at level 200).

Definition res_map {A B : Type} (f : A -> B) (r : res A) : res B :=
  let* a := r in Ok (f a).

(** Two calls end alike: with the same result, or both by raising. *)
Definition same_outcome {A : Type} (r1 r2 : res A) : Prop :=
  match r1, r2 with
  | Ok a1, Ok a2 => a1 = a2
  | Raise _, Raise _ => True
  | _, _ => False
  end.


(** ** Python floats *)

Module PyFloat.

(** [x / y] on floats. *)
Definition truediv (x y : float) : res float :=
  if PrimFloat.eqb y 0%float
  then Raise (ZeroDivisionError "float division by zero")
  else Ok (PrimFloat.div x y).

Definition is_nan (x : float) : bool := negb (PrimFloat.eqb x x).

(** A float that is neither a NaN nor an infinity. *)
Definition is_finite (x : float) : bool :=
  PrimFloat.eqb (PrimFloat.sub x x) 0%float.

(** A NaN or the positive infinity. *)
Definition nan_or_pinf (x : float) : bool :=
  is_nan x || PrimFloat.eqb x infinity.

(** *** The same notions on specification floats *)

Definition SFnan (x : spec_float) : bool :=
  match x with
  | S754_nan => true
  | _ => false
  end.

Definition SFnan_or_pinf (x : spec_float) : bool :=
  match x with
  | S754_nan | S754_infinity false => true
  | _ => false
  end.

Definition SFfinite (x : spec_float) : bool :=
  match x with
  | S754_zero _ | S754_finite _ _ _ => true
  | _ => false
  end.

(** The magnitude of a finite float: its absolute value is below 2 to that
    power. *)
Definition SFmag (x : spec_float) : Z :=
  match x with
  | S754_finite _ m e => Zpos (digits2_pos m) + e
  | _ => -1074
  end.

(** Not a NaN, and of sign [s]. *)
Definition signed (s : bool) (x : spec_float) : bool :=
  match x with
  | S754_nan => false
  | S754_zero s' | S754_infinity s' | S754_finite s' _ _ => Bool.eqb s' s
  end.

End PyFloat.

(** ** Python strings: [upper] and [lower] *)

Module PyStr.

Definition upper_ascii (c : ascii) : ascii :=
  let n := nat_of_ascii c in
  if (97 <=? n)%nat && (n <=? 122)%nat then ascii_of_nat (n - 32) else c.

Definition lower_ascii (c : ascii) : ascii :=
  let n := nat_of_ascii c in
  if (65 <=? n)%nat && (n <=? 90)%nat then ascii_of_nat (n + 32) else c.

Fixpoint upper (s : string) : string :=
  match s with
  | EmptyString => EmptyString
  | String c s' => String (upper_ascii c) (upper s')
  end.

Fixpoint lower (s : string) : string :=
  match s with
  | EmptyString => EmptyString
  | String c s' => String (lower_ascii c) (lower s')
  end.

End PyStr.

(** ** weather_analyzer.py *)

Module WeatherAnalyzer.

Inductive WeatherCondition : Type :=
| EXCELLENT | GOOD | FAIR | POOR | DANGEROUS.

Definition value (c : WeatherCondition) : string :=
  match c with
  | EXCELLENT => "excellent"
  | GOOD => "good"
  | FAIR => "fair"
  | POOR => "poor"
  | DANGEROUS => "dangerous"
  end.

(** The two threshold dictionaries of [__init__]; their keys are the five
    condition labels. *)
Definition visibility_thresholds (k : WeatherCondition) : float :=
  match k with
  | EXCELLENT => 10000
  | GOOD => 5000
  | FAIR => 2000
  | POOR => 1000
  | DANGEROUS => 500
  end%float.

Definition wind_thresholds (k : WeatherCondition) : float :=
  match k with
  | EXCELLENT => 10
  | GOOD => 15
  | FAIR => 20
  | POOR => 25
  | DANGEROUS => 30
  end%float.

#[local] Open Scope float_scope.

(** [visibility is not None and visibility < t] *)
Definition vis_below (visibility : option float) (t : float) : bool :=
  match visibility with
  | Some v => v <? t
  | None => false
  end.

Definition _get_overall_condition
    (temperature pressure wind_speed : float) (visibility : option float)
    : string :=
  if vis_below visibility (visibility_thresholds DANGEROUS) then value DANGEROUS
  else if vis_below visibility (visibility_thresholds POOR) then value POOR
  else if wind_thresholds DANGEROUS <? wind_speed then value DANGEROUS
  else if wind_thresholds POOR <? wind_speed then value POOR
  else
    let pressure_deviation := abs (pressure - 1013) in
    if 50 <? pressure_deviation then value POOR
    else if (temperature <? -40) || (50 <? temperature) then value POOR
    else if (wind_speed <? wind_thresholds EXCELLENT)
            && (pressure_deviation <? 20)
            && match visibility with
               | None => true
               | Some v => visibility_thresholds EXCELLENT <? v
               end
         then value EXCELLENT
    else if (wind_speed <? wind_thresholds GOOD) && (pressure_deviation <? 30)
         then value GOOD
    else value FAIR.

Definition msg_strong_wind : string := "Осторожно: сильный ветер".
Definition msg_low_pressure : string := "Внимание: низкое давление".
Definition msg_high_pressure : string := "Внимание: высокое давление".
Definition msg_limited_visibility : string := "Ограниченная видимость".
Definition msg_extreme_cold : string := "Экстремально низкая температура".
Definition msg_extreme_heat : string := "Экстремально высокая температура".
Definition msg_favorable : string := "Условия благоприятны для полета".

(** [l.append(x)] *)
Definition append (l : list string) (x : string) : list string :=
  (l ++ [x])%list.

Definition _get_recommendations
    (temperature pressure wind_speed : float) (visibility : option float)
    : list string :=
  let recommendations := [] in
  let recommendations :=
    if wind_thresholds FAIR <? wind_speed
    then append recommendations msg_strong_wind else recommendations in
  let recommendations :=
    if pressure <? 1000 then append recommendations msg_low_pressure
    else if 1030 <? pressure then append recommendations msg_high_pressure
    else recommendations in
  let recommendations :=
    if vis_below visibility (visibility_thresholds GOOD)
    then append recommendations msg_limited_visibility else recommendations in
  let recommendations :=
    if temperature <? -20 then append recommendations msg_extreme_cold
    else if 40 <? temperature then append recommendations msg_extreme_heat
    else recommendations in
  match recommendations with
  | [] => [msg_favorable]
  | _ => recommendations
  end.

(** The dictionary returned by [analyze_conditions]. *)
Record Conditions : Type := {
  temperature : float;
  pressure : float;
  wind_speed : float;
  visibility : option float;
  overall_condition : string;
  recommendations : list string
}.

(** The visibility lies in the poor-visibility band: not below 500 m, and below 1000 m. *)
Definition poor_band (visibility : option float) : bool :=
  negb (vis_below visibility (visibility_thresholds DANGEROUS))
  && vis_below visibility (visibility_thresholds POOR).

(** No warning of [_get_recommendations] applies: each [if] of the source
    that appends a warning is false. *)
Definition no_warning (temperature pressure wind_speed : float)
    (visibility : option float) : bool :=
  negb (wind_thresholds FAIR <? wind_speed)
  && negb (pressure <? 1000) && negb (1030 <? pressure)
  && negb (vis_below visibility (visibility_thresholds GOOD))
  && negb (temperature <? -20) && negb (40 <? temperature).

Definition analyze_conditions
    (temperature pressure wind_speed : float) (visibility : option float)
    : Conditions :=
  {| temperature := temperature;
     pressure := pressure;
     wind_speed := wind_speed;
     visibility := visibility;
     overall_condition :=
       _get_overall_condition temperature pressure wind_speed visibility;
     recommendations :=
       _get_recommendations temperature pressure wind_speed visibility |}.

(** The dictionary [summaries] of [get_weather_summary]. *)
Definition summaries : gmap string string :=
  list_to_map [
    ("excellent", "Отличные условия для полета");
    ("good", "Хорошие условия для полета");
    ("fair", "Удовлетворительные условия");
    ("poor", "Плохие условия, требуется осторожность");
    ("dangerous", "Опасные условия, полет не рекомендуется")
  ].

Definition summary_unknown : string := "Неопределенные условия".

(** [conditions] is a dictionary as [analyze_conditions] returns it. *)
Definition get_weather_summary (conditions : Conditions) : string :=
  let condition := overall_condition conditions in
  default summary_unknown (summaries !! condition).

(** The five labels of [WeatherCondition]. *)
Definition labels : list string :=
  map value [EXCELLENT; GOOD; FAIR; POOR; DANGEROUS].

(** The four tests that make [_get_overall_condition] answer "excellent"
    once no earlier check has returned. *)
Definition excellent_inputs (temperature pressure wind_speed : float)
    (visibility : option float) : bool :=
  (wind_speed <? 10)
  && (abs (pressure - 1013) <? 20)
  && match visibility with
     | None => true
     | Some v => 10000 <? v
     end
  && negb (temperature <? -40) && negb (50 <? temperature).

(** The inputs that make [_get_overall_condition] answer "dangerous": a
    visibility below 500, or a wind above 30 with a visibility that is
    absent or not below 1000. *)
Definition dangerous_inputs (wind_speed : float) (visibility : option float)
    : bool :=
  vis_below visibility 500
  || (negb (vis_below visibility 1000) && (30 <? wind_speed)).

(** *** The dictionary lookups written out

    [_get_overall_condition] and [_get_recommendations] read their
    thresholds from the two dictionaries of [__init__] by key, and a key
    that a dictionary lacks raises [KeyError].  Here the lookups are written
    where the source evaluates them; [ErrorProps.analyze_conditions_lookups]
    shows that none raises and that the result is the one of the functions
    above. *)

Module Lookups.

Definition visibility_thresholds : gmap string float :=
  list_to_map [
    ("excellent", 10000);
    ("good", 5000);
    ("fair", 2000);
    ("poor", 1000);
    ("dangerous", 500)
  ].

Definition wind_thresholds : gmap string float :=
  list_to_map [
    ("excellent", 10);
    ("good", 15);
    ("fair", 20);
    ("poor", 25);
    ("dangerous", 30)
  ].

(** [d[k]] *)
Definition getitem (d : gmap string float) (k : string) : res float :=
  match d !! k with
  | Some x => Ok x
  | None => Raise (KeyError k)
  end.

(** The visibility check: the label it returns, if it returns. *)
Definition visibility_check (visibility : option float) : res (option string) :=
  match visibility with
  | Some v =>
      let* dangerous := getitem visibility_thresholds "dangerous" in
      if v <? dangerous then Ok (Some (value DANGEROUS))
      else
        let* poor := getitem visibility_thresholds "poor" in
        if v <? poor then Ok (Some (value POOR)) else Ok None
  | None => Ok None
  end.

(** The condition of the branch "excellent"; [and] and [or] evaluate their
    right operand only when the left one does not decide. *)
Definition excellent_test (pressure_deviation wind_speed : float)
    (visibility : option float) : res bool :=
  let* excellent := getitem wind_thresholds "excellent" in
  if wind_speed <? excellent then
    if pressure_deviation <? 20 then
      match visibility with
      | None => Ok true
      | Some v =>
          let* excellent := getitem visibility_thresholds "excellent" in
          Ok (excellent <? v)
      end
    else Ok false
  else Ok false.

Definition good_test (pressure_deviation wind_speed : float) : res bool :=
  let* good := getitem wind_thresholds "good" in
  if wind_speed <? good then Ok (pressure_deviation <? 30) else Ok false.

Definition _get_overall_condition
    (temperature pressure wind_speed : float) (visibility : option float)
    : res string :=
  let* early := visibility_check visibility in
  match early with
  | Some label => Ok label
  | None =>
      let* dangerous := getitem wind_thresholds "dangerous" in
      if dangerous <? wind_speed then Ok (value DANGEROUS)
      else
        let* poor := getitem wind_thresholds "poor" in
        if poor <? wind_speed then Ok (value POOR)
        else
          let pressure_deviation := abs (pressure - 1013) in
          if 50 <? pressure_deviation then Ok (value POOR)
          else if (temperature <? -40) || (50 <? temperature) then Ok (value POOR)
          else
            let* is_excellent :=
              excellent_test pressure_deviation wind_speed visibility in
            if is_excellent then Ok (value EXCELLENT)
            else
              let* is_good := good_test pressure_deviation wind_speed in
              if is_good then Ok (value GOOD) else Ok (value FAIR)
  end.

Definition _get_recommendations
    (temperature pressure wind_speed : float) (visibility : option float)
    : res (list string) :=
  let recommendations := [] in
  let* fair := getitem wind_thresholds "fair" in
  let recommendations :=
    if fair <? wind_speed
    then append recommendations msg_strong_wind else recommendations in
  let recommendations :=
    if pressure <? 1000 then append recommendations msg_low_pressure
    else if 1030 <? pressure then append recommendations msg_high_pressure
    else recommendations in
  let* limited :=
    match visibility with
    | None => Ok false
    | Some v =>
        let* good := getitem visibility_thresholds "good" in Ok (v <? good)
    end in
  let recommendations :=
    if limited
    then append recommendations msg_limited_visibility else recommendations in
  let recommendations :=
    if temperature <? -20 then append recommendations msg_extreme_cold
    else if 40 <? temperature then append recommendations msg_extreme_heat
    else recommendations in
  Ok match recommendations with
     | [] => [msg_favorable]
     | _ => recommendations
     end.

Definition analyze_conditions
    (temperature pressure wind_speed : float) (visibility : option float)
    : res Conditions :=
  let* overall_condition :=
    _get_overall_condition temperature pressure wind_speed visibility in
  let* recommendations :=
    _get_recommendations temperature pressure wind_speed visibility in
  Ok {| temperature := temperature;
        pressure := pressure;
        wind_speed := wind_speed;
        visibility := visibility;
        overall_condition := overall_condition;
        recommendations := recommendations |}.

End Lookups.

End WeatherAnalyzer.


(** ** Python lists: [list.sort(key=..., reverse=True)] *)

Module PyList.

(** [list.sort] is stable and compares keys with [<] only; with
    [reverse=True] the order is descending and entries with equal keys keep
    their input order.  It is embedded as the stable insertion sort below,
    which agrees with every stable sort when [<] totally preorders the keys. *)
Fixpoint insert_desc {A : Type} (key : A -> float) (x : A) (l : list A) : list A :=
  match l with
  | [] => [x]
  | y :: l' =>
      if PrimFloat.ltb (key x) (key y) then y :: insert_desc key x l' else x :: l
  end.

Definition sort_desc {A : Type} (key : A -> float) (l : list A) : list A :=
  fold_right (insert_desc key) [] l.

(** The key of [a] is not below the key of [b]. *)
Definition not_below {A : Type} (key : A -> float) (a b : A) : Prop :=
  PrimFloat.ltb (key a) (key b) = false.

(** Every key is a NaN ([b = true]), or none is ([b = false]). *)
Definition uniform {A : Type} (key : A -> float) (b : bool) (l : list A) : Prop :=
  Forall (fun a => PyFloat.is_nan (key a) = b) l.

End PyList.

(** ** fuel_calculator.py *)

Module FuelCalculator.

#[local] Open Scope float_scope.

Record FuelConsumption : Type := {
  total_fuel : float;
  fuel_per_100km : float;
  fuel_per_hour : float;
  flight_time : float;
  distance : float
}.

(** One entry of [aircraft_profiles]. *)
Record Profile : Type := {
  fuel_rate : float;
  cruise_speed : float;
  max_range : float;
  fuel_capacity : float
}.

Definition aircraft_profiles : gmap string Profile :=
  list_to_map [
    ("boeing_737",
     {| fuel_rate := 2.5; cruise_speed := 800;
        max_range := 5000; fuel_capacity := 26000 |});
    ("airbus_a320",
     {| fuel_rate := 2.3; cruise_speed := 820;
        max_range := 5500; fuel_capacity := 24000 |});
    ("boeing_777",
     {| fuel_rate := 4.2; cruise_speed := 900;
        max_range := 15000; fuel_capacity := 180000 |});
    ("airbus_a380",
     {| fuel_rate := 5.8; cruise_speed := 900;
        max_range := 15000; fuel_capacity := 320000 |});
    ("cessna_172",
     {| fuel_rate := 0.8; cruise_speed := 200;
        max_range := 1000; fuel_capacity := 200 |});
    ("default",
     {| fuel_rate := 2.0; cruise_speed := 600;
        max_range := 3000; fuel_capacity := 5000 |})
  ].

(** [d[k]] *)
Definition getitem (d : gmap string Profile) (k : string) : res Profile :=
  match d !! k with
  | Some p => Ok p
  | None => Raise (KeyError k)
  end.

(** [self.aircraft_profiles.get(aircraft_type.lower(),
                                self.aircraft_profiles["default"])] *)
Definition get_profile (aircraft_type : string) : res Profile :=
  let* fallback := getitem aircraft_profiles "default" in
  Ok (default fallback (aircraft_profiles !! PyStr.lower aircraft_type)).

Definition calculate_fuel_consumption
    (distance : float) (aircraft_type : string)
    (wind_factor payload_factor : float) : res FuelConsumption :=
  let* profile := get_profile aircraft_type in
  let base_fuel_rate := fuel_rate profile in
  let adjusted_fuel_rate := base_fuel_rate * wind_factor * payload_factor in
  let cruise_speed := cruise_speed profile in
  let* flight_time := PyFloat.truediv distance cruise_speed in
  let* hundreds := PyFloat.truediv distance 100 in
  let total_fuel := hundreds * adjusted_fuel_rate in
  let* fuel_per_hour :=
    if 0 <? flight_time then PyFloat.truediv total_fuel flight_time else Ok 0 in
  Ok {| total_fuel := total_fuel;
        fuel_per_100km := adjusted_fuel_rate;
        fuel_per_hour := fuel_per_hour;
        flight_time := flight_time;
        distance := distance |}.

Definition calculate_fuel_efficiency (distance fuel_used : float) : res float :=
  if fuel_used <=? 0 then Ok 0 else PyFloat.truediv distance fuel_used.

Definition calculate_fuel_cost
    (fuel_consumption : FuelConsumption) (fuel_price : float) : float :=
  total_fuel fuel_consumption * fuel_price.

Definition calculate_optimal_speed
    (aircraft_type : string) (distance : float) : res float :=
  let* profile := get_profile aircraft_type in
  if distance <? 1000 then Ok (cruise_speed profile * 0.9)
  else if distance <? 3000 then Ok (cruise_speed profile * 0.95)
  else Ok (cruise_speed profile).


Definition get_aircraft_info (aircraft_type : string) : res Profile :=
  get_profile aircraft_type.

(** One dictionary of the list returned by [compare_aircraft_efficiency]. *)
Record Comparison : Type := {
  aircraft_type : string;
  fuel_consumption : float;
  efficiency : float;
  entry_flight_time : float;
  entry_fuel_per_100km : float
}.

(** The body of the loop of [compare_aircraft_efficiency]. *)
Definition compare_entry (distance : float) (aircraft_type : string)
    : res Comparison :=
  let* consumption := calculate_fuel_consumption distance aircraft_type 1.0 1.0 in
  let* efficiency := calculate_fuel_efficiency distance (total_fuel consumption) in
  Ok {| aircraft_type := aircraft_type;
        fuel_consumption := total_fuel consumption;
        efficiency := efficiency;
        entry_flight_time := flight_time consumption;
        entry_fuel_per_100km := fuel_per_100km consumption |}.

(** The loop: one [results.append] per requested type, in order. *)
Fixpoint compare_loop (distance : float) (aircraft_types : list string)
    : res (list Comparison) :=
  match aircraft_types with
  | [] => Ok []
  | aircraft_type :: rest =>
      let* entry := compare_entry distance aircraft_type in
      let* results := compare_loop distance rest in
      Ok (entry :: results)
  end.

Definition compare_aircraft_efficiency
    (distance : float) (aircraft_types : list string) : res (list Comparison) :=
  let* results := compare_loop distance aircraft_types in
  Ok (PyList.sort_desc efficiency results).

(** *** Closed forms, for the proofs

    What [calculate_fuel_consumption], [calculate_fuel_efficiency] and the
    loop body of [compare_aircraft_efficiency] compute once the profile is
    known and no division can raise. *)

Definition consumption_of (profile : Profile)
    (distance wind_factor payload_factor : float) : FuelConsumption :=
  let adjusted_fuel_rate := fuel_rate profile * wind_factor * payload_factor in
  let flight_time := distance / cruise_speed profile in
  let total_fuel := (distance / 100) * adjusted_fuel_rate in
  {| total_fuel := total_fuel;
     fuel_per_100km := adjusted_fuel_rate;
     fuel_per_hour := if 0 <? flight_time then total_fuel / flight_time else 0;
     flight_time := flight_time;
     distance := distance |}.

Definition efficiency_of (distance fuel_used : float) : float :=
  if fuel_used <=? 0 then 0 else distance / fuel_used.

Definition entry_of (profile : Profile) (distance : float)
    (aircraft_type : string) : Comparison :=
  let consumption := consumption_of profile distance 1.0 1.0 in
  {| aircraft_type := aircraft_type;
     fuel_consumption := total_fuel consumption;
     efficiency := efficiency_of distance (total_fuel consumption);
     entry_flight_time := flight_time consumption;
     entry_fuel_per_100km := fuel_per_100km consumption |}.

(** *** Descending order of efficiency *)

(** No entry is followed, anywhere later in the list, by an entry of
    strictly higher efficiency. *)
Definition descending (results : list Comparison) : Prop :=
  StronglySorted (PyList.not_below efficiency) results.

(** Every entry has at least the efficiency of every later entry. *)
Definition descending_geq (results : list Comparison) : Prop :=
  StronglySorted
    (fun a b => (efficiency b <=? efficiency a) = true) results.

(** The entry of the table under the key "default". *)
Definition default_profile : Profile :=
  {| fuel_rate := 2.0; cruise_speed := 600;
     max_range := 3000; fuel_capacity := 5000 |}.

(** The profile a request selects: the entry under the lowercased type, and
    the default entry when the table has no such key. *)
Definition selected_profile (aircraft_type : string) : Profile :=
  match aircraft_profiles !! PyStr.lower aircraft_type with
  | Some profile => profile
  | None => default_profile
  end.

End FuelCalculator.

(** ** The [math] module *)

Module PyMath.

#[local] Open Scope float_scope.

(** The functions Python takes from the platform's C math library:
    [math.sin], [math.cos], [math.asin] and the float power [x ** y].  Their
    values are not fixed by IEEE 754, so the embedding takes them as an
    interface; a call may raise ([ValueError: math domain error],
    [OverflowError]). *)
Record MathLib : Type := {
  sin : float -> res float;
  cos : float -> res float;
  asin : float -> res float;
  pow : float -> float -> res float
}.

(** What the distance properties need of the math library.  The sine is an
    odd function; squaring, [x ** 2], discards the sign of [x]; sine, square
    and arcsine of zero are zero (C, annex F); the cosine of a finite number
    is returned, and lies between -1 and 1. *)
Record MathLibLaws (M : MathLib) : Prop := {
  sin_odd : forall x, sin M (- x) = res_map PrimFloat.opp (sin M x);
  pow_even : forall x, pow M (- x) 2 = pow M x 2;
  sin_zero : sin M 0 = Ok 0;
  pow_zero : pow M 0 2 = Ok 0;
  asin_zero : asin M 0 = Ok 0;
  cos_bounded : forall x,
    PyFloat.is_finite x = true ->
    exists c, cos M x = Ok c /\ (abs c <=? 1) = true
}.

(** A small math library to evaluate the definitions with: the first term
    of the series of each function (sin x = x, cos x = 1, asin x = x), and
    the correctly rounded square for [x ** 2], the one power the distance
    functions take; other exponents are refused. *)
Definition first_order : MathLib :=
  {| sin := fun x => Ok x;
     cos := fun _ => Ok 1;
     asin := fun x => Ok x;
     pow := fun x y =>
       if y =? 2 then Ok (x * x)
       else Raise (ValueError "exponent other than 2") |}.

(** [math.radians(x)] is [x * (pi / 180)]. *)
Definition radians (x : float) : float :=
  x * (3.141592653589793 / 180).

(** [math.sqrt(x)]: the correctly rounded square root; a negative argument
    raises. *)
Definition sqrt (x : float) : res float :=
  let r := PrimFloat.sqrt x in
  if PyFloat.is_nan r && negb (PyFloat.is_nan x)
  then Raise (ValueError "math domain error")
  else Ok r.

End PyMath.

(** ** flight_calculator.py *)

Module FlightCalculator.

#[local] Open Scope float_scope.

Definition earth_radius : float := 6371.
Definition gravity : float := 9.81.

Definition calculate_flight_time (distance speed wind_factor : float) : res float :=
  if speed <=? 0 then Raise (ValueError "Скорость должна быть больше 0")
  else
    let effective_speed := speed * wind_factor in
    PyFloat.truediv distance effective_speed.

(** The default [wind_factor=1.0]. *)
Definition calculate_flight_time_default (distance speed : float) : res float :=
  calculate_flight_time distance speed 1.0.

Section WithMathLib.
Variable M : PyMath.MathLib.

(** Two parts of [calculate_distance], named for the proofs: the squared
    sine of half a difference, and the way from [a] to the distance. *)
Definition half_chord_sq (delta : float) : res float :=
  let* half := PyFloat.truediv delta 2 in
  let* s := PyMath.sin M half in
  PyMath.pow M s 2.

Definition central_distance (a : float) : res float :=
  let* root := PyMath.sqrt a in
  let* angle := PyMath.asin M root in
  let c := 2 * angle in
  Ok (earth_radius * c).

Definition calculate_distance (lat1 lon1 lat2 lon2 : float) : res float :=
  let lat1_rad := PyMath.radians lat1 in
  let lon1_rad := PyMath.radians lon1 in
  let lat2_rad := PyMath.radians lat2 in
  let lon2_rad := PyMath.radians lon2 in
  let dlat := lat2_rad - lat1_rad in
  let dlon := lon2_rad - lon1_rad in
  let* half_dlat := PyFloat.truediv dlat 2 in
  let* s1 := PyMath.sin M half_dlat in
  let* sq1 := PyMath.pow M s1 2 in
  let* c1 := PyMath.cos M lat1_rad in
  let* c2 := PyMath.cos M lat2_rad in
  let* half_dlon := PyFloat.truediv dlon 2 in
  let* s2 := PyMath.sin M half_dlon in
  let* sq2 := PyMath.pow M s2 2 in
  let a := sq1 + c1 * c2 * sq2 in
  let* root := PyMath.sqrt a in
  let* angle := PyMath.asin M root in
  let c := 2 * angle in
  Ok (earth_radius * c).

End WithMathLib.

Definition calculate_mach_number (speed altitude : float) : res float :=
  let temperature := 288.15 - 0.0065 * altitude in
  let* root := PyMath.sqrt temperature in
  let speed_of_sound := 20.05 * root in
  let* speed_ms := PyFloat.truediv speed 3.6 in
  PyFloat.truediv speed_ms speed_of_sound.

(** The dictionary [fuel_rates] of [calculate_fuel_consumption]. *)
Definition fuel_rates : gmap string float :=
  list_to_map [
    ("boeing_737", 2.5);
    ("airbus_a320", 2.3);
    ("boeing_777", 4.2);
    ("airbus_a380", 5.8);
    ("cessna_172", 0.8);
    ("default", 2.0)
  ].

(** [fuel_rates[k]] *)
Definition getitem (d : gmap string float) (k : string) : res float :=
  match d !! k with
  | Some x => Ok x
  | None => Raise (KeyError k)
  end.

Definition calculate_fuel_consumption (distance : float) (aircraft_type : string)
    : res float :=
  let* fallback := getitem fuel_rates "default" in
  let rate := default fallback (fuel_rates !! PyStr.lower aircraft_type) in
  let* hundreds := PyFloat.truediv distance 100 in
  Ok (hundreds * rate).

End FlightCalculator.

(** ** airport_manager.py *)

Module AirportManager.

#[local] Open Scope float_scope.

Record Airport : Type := {
  icao_code : string;
  name : string;
  city : string;
  country : string;
  latitude : float;
  longitude : float;
  elevation : float
}.

(** The values of the dictionary built by [Airport.to_dict]. *)
Inductive value : Type :=
| Str (s : string)
| Num (x : float).

Definition to_dict (self : Airport) : list (string * value) :=
  [ ("icao_code", Str (icao_code self));
    ("name", Str (name self));
    ("city", Str (city self));
    ("country", Str (country self));
    ("latitude", Num (latitude self));
    ("longitude", Num (longitude self));
    ("elevation", Num (elevation self)) ].

Definition default_airports : list Airport :=
  [ Build_Airport "UUEE" "Шереметьево" "Москва" "Россия" 55.9736 37.4145 190;
    Build_Airport "UUDD" "Домодедово" "Москва" "Россия" 55.4146 37.8994 179;
    Build_Airport "UUMO" "Внуково" "Москва" "Россия" 55.5915 37.2615 209;
    Build_Airport "EGLL" "Хитроу" "Лондон" "Великобритания" 51.4700 (-0.4543) 25;
    Build_Airport "LFPG" "Шарль де Голль" "Париж" "Франция" 49.0097 2.5479 119;
    Build_Airport "EDDF" "Франкфурт" "Франкфурт" "Германия" 50.0379 8.5622 113;
    Build_Airport "KJFK" "Кеннеди" "Нью-Йорк" "США" 40.6413 (-73.7781) 4;
    Build_Airport "KLAX" "Лос-Анджелес" "Лос-Анджелес" "США" 33.9416 (-118.4085) 38;
    Build_Airport "RJTT" "Ханеда" "Токио" "Япония" 35.5494 139.7798 6;
    Build_Airport "ZBAA" "Пекин Столичный" "Пекин" "Китай" 40.0801 116.5846 35 ].

(** The state of a manager: the dictionary [self.airports]. *)
Abbreviation registry := (gmap string Airport).

(** [self.airports[airport.icao_code] = airport] *)
Definition add_airport (self : registry) (airport : Airport) : registry :=
  <[icao_code airport := airport]> self.

(** The loop of [_load_default_airports], from the left. *)
Definition _load_default_airports (self : registry) : registry :=
  fold_left add_airport default_airports self.

(** [AirportManager()] *)
Definition __init__ : registry := _load_default_airports ∅.

Definition get_airport (self : registry) (icao_code : string) : option Airport :=
  self !! PyStr.upper icao_code.

(** The dictionary returned by [get_route_info]. *)
Record RouteInfo : Type := {
  departure : list (string * value);
  arrival : list (string * value);
  distance_km : option float;
  route : string
}.

Section WithMathLib.
Variable M : PyMath.MathLib.

Definition calculate_distance_between_airports
    (self : registry) (icao1 icao2 : string) : res (option float) :=
  let airport1 := get_airport self icao1 in
  let airport2 := get_airport self icao2 in
  match airport1, airport2 with
  | Some airport1, Some airport2 =>
      let lat1 := PyMath.radians (latitude airport1) in
      let lon1 := PyMath.radians (longitude airport1) in
      let lat2 := PyMath.radians (latitude airport2) in
      let lon2 := PyMath.radians (longitude airport2) in
      let dlat := lat2 - lat1 in
      let dlon := lon2 - lon1 in
      let* half_dlat := PyFloat.truediv dlat 2 in
      let* s1 := PyMath.sin M half_dlat in
      let* sq1 := PyMath.pow M s1 2 in
      let* c1 := PyMath.cos M lat1 in
      let* c2 := PyMath.cos M lat2 in
      let* half_dlon := PyFloat.truediv dlon 2 in
      let* s2 := PyMath.sin M half_dlon in
      let* sq2 := PyMath.pow M s2 2 in
      let a := sq1 + c1 * c2 * sq2 in
      let* root := PyMath.sqrt a in
      let* angle := PyMath.asin M root in
      let c := 2 * angle in
      let earth_radius := 6371 in
      let distance := earth_radius * c in
      Ok (Some distance)
  | _, _ => Ok None
  end.

Definition get_route_info
    (self : registry) (departure arrival : string) : res (option RouteInfo) :=
  let dep_airport := get_airport self departure in
  let arr_airport := get_airport self arrival in
  match dep_airport, arr_airport with
  | Some dep_airport, Some arr_airport =>
      let* distance := calculate_distance_between_airports self departure arrival in
      Ok (Some {| departure := to_dict dep_airport;
                  arrival := to_dict arr_airport;
                  distance_km := distance;
                  route := icao_code dep_airport ++ " → " ++ icao_code arr_airport |})
  | _, _ => Ok None
  end.

End WithMathLib.

(** The states of a manager: freshly constructed, then changed by any number
    of [add_airport] calls. *)
Inductive reachable : registry -> Prop :=
| reachable_init : reachable __init__
| reachable_add (self : registry) (airport : Airport) :
    reachable self -> reachable (add_airport self airport).

(** Every key is the uppercase form of the code of the airport stored under it. *)
Definition keys_uppercased (self : registry) : Prop :=
  forall (k : string) (a : Airport),
    self !! k = Some a -> k = PyStr.upper (icao_code a).

(** The states reached when every airport added spells its code in
    uppercase, as the default airports do. *)
Inductive reachable_upper : registry -> Prop :=
| reachable_upper_init : reachable_upper __init__
| reachable_upper_add (self : registry) (airport : Airport) :
    reachable_upper self ->
    PyStr.upper (icao_code airport) = icao_code airport ->
    reachable_upper (add_airport self airport).

(** The codes of the default airports. *)
Definition default_codes : list string := map icao_code default_airports.

(** An airport whose code is written in lowercase. *)
Definition lowercase_airport : Airport :=
  Build_Airport "abcd" "Test Field" "Testville" "Testland" 10 20 0.

End AirportManager.

(** ** The values of floats

    What the claims about rounding are stated with: the rational number a
    finite float stands for, and the floats that are normal numbers of a
    given range of exponents. *)

Module FloatValue.

(** The rational number a finite float stands for; 0 for the others. *)
Definition SF2Q (x : spec_float) : Q :=
  match x with
  | S754_finite s m e =>
      let v := (inject_Z (Zpos m) * 2 ^ e)%Q in if s then (- v)%Q else v
  | _ => 0%Q
  end.

Definition F2Q (x : float) : Q := SF2Q (Prim2SF x).

(** A normal float above zero whose exponent lies between [lo] and [hi]:
    its value is between 2^(lo+52) and 2^(hi+53). *)
Definition SFnormal_in (lo hi : Z) (x : spec_float) : bool :=
  match x with
  | S754_finite false m e =>
      (Zpos (digits2_pos m) =? 53)%Z && (lo <=? e)%Z && (e <=? hi)%Z
  | _ => false
  end.

Definition normal_in (lo hi : Z) (x : float) : bool :=
  SFnormal_in lo hi (Prim2SF x).

(** The relative error of one rounding, 2^-52. *)
Definition ulp : Q := 1 # 4503599627370496.

(** [lo <= x <= hi] on floats. *)
Definition between (lo hi x : float) : bool :=
  (lo <=? x)%float && (x <=? hi)%float.

(** [v] is within the factors [lo] and [hi] of [V]. *)
Abbreviation within lo hi v V := (lo * V <= v /\ v <= hi * V)%Q.

(** The relative error allowed to fuel_per_hour: 2^-48. *)
Abbreviation eps := (1 # 281474976710656)%Q.

End FloatValue.

(** * Properties

    Tactics first. *)

(** Case analysis on the first call whose result a [bind] waits for. *)
Ltac step_bind :=
  match goal with
  | |- context [bind ?r _] =>
      let a := fresh "a" in let e := fresh "e" in
      destruct r as [a|e]; cbn [bind res_map]
  end.

(** Case analysis on every comparison of exponents and mantissas. *)
Ltac cmp_cases :=
  repeat match goal with
  | |- context [Z.compare ?a ?b] => destruct (Z.compare_spec a b)
  | |- context [Pos.compare_cont Eq ?a ?b] =>
      change (Pos.compare_cont Eq a b) with (Pos.compare a b);
      destruct (Pos.compare_spec a b)
  end.

Ltac cmp_solve :=
  cbn; try discriminate; try reflexivity;
  cmp_cases; cbn; try discriminate; try reflexivity; try lia.

(** Case analysis on the entry of the table that a lookup returned. *)
Ltac profile_cases H :=
  apply elem_of_list_to_map_2 in H;
  repeat (apply elem_of_cons in H as [H|H]; [injection H as _ ->|]);
  [..|apply elem_of_nil in H; destruct H].

(** Case analysis on every test of the cascade. *)
Ltac cascade :=
  repeat match goal with
  | |- context [if ?b then _ else _] => destruct b eqn:?
  | |- context [?a && ?b] => destruct a eqn:?; cbn [andb]
  | |- context [?a || ?b] => destruct a eqn:?; cbn [orb]
  end.

(** ** Facts about binary64 arithmetic

    Derived from the specification of the primitive operations
    ([FloatAxioms]) over [SpecFloat]. *)

Module FloatFacts.

#[local] Open Scope float_scope.

Lemma Prim2SF_zero : Prim2SF 0 = S754_zero false.
Proof. reflexivity. Qed.

(** A float above zero is not equal to zero. *)
Lemma ltb_0_neq (x : float) : (0 <? x) = true -> (x =? 0) = false.
Proof.
  rewrite FloatAxioms.ltb_spec, FloatAxioms.eqb_spec, Prim2SF_zero.
  destruct (Prim2SF x) as [s|s| |s m e]; cbn; try discriminate;
    destruct s; cbn; try discriminate; reflexivity.
Qed.

(** A float above zero is not at most zero. *)
Lemma ltb_0_not_leb (x : float) : (0 <? x) = true -> (x <=? 0) = false.
Proof.
  rewrite FloatAxioms.ltb_spec, FloatAxioms.leb_spec, Prim2SF_zero.
  destruct (Prim2SF x) as [s|s| |s m e]; cbn; try discriminate;
    destruct s; cbn; try discriminate; reflexivity.
Qed.

(** A float that is not at most zero is not equal to zero. *)
Lemma not_leb_0_neq (x : float) : (x <=? 0) = false -> (x =? 0) = false.
Proof.
  rewrite FloatAxioms.leb_spec, FloatAxioms.eqb_spec. unfold SFleb, SFeqb.
  destruct (SFcompare (Prim2SF x) (Prim2SF 0)) as [[]|]; congruence.
Qed.

(** *** NaN and the order of floats *)

Import PyFloat.

Lemma SFeqb_refl (x : spec_float) : SFeqb x x = negb (SFnan x).
Proof.
  destruct x as [s|s| |s m e]; cbn; try reflexivity.
  - destruct s; reflexivity.
  - unfold SFeqb; cbn.
    destruct s; rewrite Z.compare_refl, Pos.compare_cont_refl; reflexivity.
Qed.

Lemma is_nan_spec (x : float) : is_nan x = SFnan (Prim2SF x).
Proof.
  unfold is_nan. rewrite FloatAxioms.eqb_spec, SFeqb_refl. apply negb_involutive.
Qed.

Lemma nan_or_pinf_spec (x : float) : nan_or_pinf x = SFnan_or_pinf (Prim2SF x).
Proof.
  unfold nan_or_pinf. rewrite is_nan_spec, FloatAxioms.eqb_spec.
  change (Prim2SF infinity) with (S754_infinity false).
  destruct (Prim2SF x) as [s|s| |s m e]; try destruct s; reflexivity.
Qed.

Lemma SFltb_negtrans (x y z : spec_float) :
  SFnan y = false ->
  SFltb x y = false -> SFltb y z = false -> SFltb x z = false.
Proof.
  unfold SFltb.
  destruct x as [sx|sx| |sx mx ex], y as [sy|sy| |sy my ey],
           z as [sz|sz| |sz mz ez];
    cbn; try discriminate; try reflexivity; intros _;
    try destruct sx; try destruct sy; try destruct sz; cmp_solve.
Qed.

Lemma SFltb_asym (x y : spec_float) : SFltb x y = true -> SFltb y x = false.
Proof.
  unfold SFltb.
  destruct x as [sx|sx| |sx mx ex], y as [sy|sy| |sy my ey];
    cbn; try discriminate; try reflexivity;
    try destruct sx; try destruct sy; cmp_solve.
Qed.

Lemma SFltb_total (x y : spec_float) :
  SFnan x = false -> SFnan y = false -> SFltb x y = false -> SFleb y x = true.
Proof.
  unfold SFltb, SFleb.
  destruct x as [sx|sx| |sx mx ex], y as [sy|sy| |sy my ey];
    cbn; try discriminate; try reflexivity; intros _ _;
    try destruct sx; try destruct sy; cmp_solve.
Qed.

(** [<] is asymmetric. *)
Lemma ltb_asym (x y : float) : (x <? y) = true -> (y <? x) = false.
Proof. rewrite !FloatAxioms.ltb_spec. apply SFltb_asym. Qed.

(** Across a float that is not a NaN, "not below" is transitive. *)
Lemma ltb_negtrans (x y z : float) :
  is_nan y = false ->
  (x <? y) = false -> (y <? z) = false -> (x <? z) = false.
Proof. rewrite is_nan_spec, !FloatAxioms.ltb_spec. apply SFltb_negtrans. Qed.

(** A NaN is below nothing. *)
Lemma ltb_nan_l (x y : float) : is_nan x = true -> (x <? y) = false.
Proof.
  rewrite is_nan_spec, FloatAxioms.ltb_spec.
  destruct (Prim2SF x); try discriminate. reflexivity.
Qed.

(** Two floats that are not NaNs are comparable. *)
Lemma not_ltb_leb (x y : float) :
  is_nan x = false -> is_nan y = false -> (x <? y) = false -> (y <=? x) = true.
Proof.
  rewrite !is_nan_spec, FloatAxioms.ltb_spec, FloatAxioms.leb_spec.
  apply SFltb_total.
Qed.

(** *** Rounding keeps the sign and yields no NaN *)

Lemma shr_1_nonneg (r : shr_record) :
  (0 <= shr_m r)%Z -> (0 <= shr_m (shr_1 r))%Z.
Proof.
  destruct r as [m r s]. cbn [shr_m]. intros H.
  destruct m as [|[p|p|]|p]; cbn; lia.
Qed.

Lemma iter_shr_1_nonneg (p : positive) (r : shr_record) :
  (0 <= shr_m r)%Z -> (0 <= shr_m (SpecFloat.iter_pos shr_1 p r))%Z.
Proof.
  revert r. induction p as [p IH|p IH|]; intros r H; cbn [SpecFloat.iter_pos].
  - apply IH, IH, shr_1_nonneg, H.
  - apply IH, IH, H.
  - apply shr_1_nonneg, H.
Qed.

Lemma shr_fexp_nonneg (m e : Z) (l : location) :
  (0 <= m)%Z -> (0 <= shr_m (fst (shr_fexp prec emax m e l)))%Z.
Proof.
  intros H. unfold shr_fexp, shr.
  assert (H0 : (0 <= shr_m (shr_record_of_loc m l))%Z).
  { destruct l as [|[]]; exact H. }
  destruct (fexp prec emax (Zdigits2 m + e) - e)%Z; cbn [fst]; try exact H0.
  apply iter_shr_1_nonneg, H0.
Qed.

Lemma round_nearest_even_nonneg (m : Z) (l : location) :
  (0 <= m)%Z -> (0 <= round_nearest_even m l)%Z.
Proof.
  intros H. destruct l as [|[]]; cbn; try exact H; try lia.
  destruct (Z.even m); lia.
Qed.

Lemma binary_round_aux_signed (s : bool) (m e : Z) (l : location) :
  (0 <= m)%Z -> signed s (binary_round_aux prec emax s m e l) = true.
Proof.
  intros H. unfold binary_round_aux.
  pose proof (shr_fexp_nonneg m e l H) as H1.
  destruct (shr_fexp prec emax m e l) as [mrs' e']. cbn [fst] in H1.
  pose proof (shr_fexp_nonneg _ e' loc_Exact
                (round_nearest_even_nonneg _ (loc_of_shr_record mrs') H1)) as H2.
  destruct (shr_fexp prec emax _ e' loc_Exact) as [mrs'' e'']. cbn [fst] in H2.
  destruct (shr_m mrs'') as [|p|p].
  - cbn. apply eqb_reflx.
  - destruct (e'' <=? emax - prec)%Z; cbn; apply eqb_reflx.
  - lia.
Qed.

Lemma SFdiv_core_nonneg (m1 : positive) (e1 : Z) (m2 : positive) (e2 : Z) :
  (0 <= fst (fst (SFdiv_core_binary prec emax (Zpos m1) e1 (Zpos m2) e2)))%Z.
Proof.
  unfold SFdiv_core_binary.
  set (sh := (e1 - e2 - _)%Z).
  set (m' := match sh with
             | Zpos _ => Z.shiftl (Zpos m1) sh
             | Z0 => Zpos m1
             | Zneg _ => 0%Z
             end).
  assert (Hm : (0 <= m')%Z).
  { subst m'. destruct sh; try lia. apply Z.shiftl_nonneg. lia. }
  pose proof (Z.div_pos m' (Zpos m2) Hm ltac:(lia)) as Hq.
  unfold Z.div in Hq. destruct (Z.div_eucl m' (Zpos m2)) as [q r]. exact Hq.
Qed.

Lemma SFdiv_finite_signed (sx : bool) (mx : positive) (ex : Z)
    (sy : bool) (my : positive) (ey : Z) :
  signed (xorb sx sy)
    (SF64div (S754_finite sx mx ex) (S754_finite sy my ey)) = true.
Proof.
  unfold SF64div, SFdiv.
  pose proof (SFdiv_core_nonneg mx ex my ey) as H.
  destruct (SFdiv_core_binary prec emax (Zpos mx) ex (Zpos my) ey) as [[mz ez] lz].
  apply binary_round_aux_signed, H.
Qed.

Lemma SFmul_finite_signed (sx : bool) (mx : positive) (ex : Z)
    (sy : bool) (my : positive) (ey : Z) :
  signed (xorb sx sy)
    (SF64mul (S754_finite sx mx ex) (S754_finite sy my ey)) = true.
Proof.
  unfold SF64mul, SFmul. apply binary_round_aux_signed. lia.
Qed.

(** *** Multiplication by one is exact *)

Lemma Prim2SF_one : Prim2SF 1 = S754_finite false 4503599627370496 (-52).
Proof. reflexivity. Qed.

Lemma iter_shr_52 (m : positive) :
  SpecFloat.iter_pos shr_1 52
    {| shr_m := Zpos (4503599627370496 * m); shr_r := false; shr_s := false |}
  = {| shr_m := Zpos m; shr_r := false; shr_s := false |}.
Proof. reflexivity. Qed.

Lemma digits_iter_xO (m n : positive) :
  Zpos (digits2_pos (Pos.iter xO m n)) = (Zpos (digits2_pos m) + Zpos n)%Z.
Proof.
  induction n as [|n IH] using Pos.peano_ind.
  - cbn [Pos.iter digits2_pos]. lia.
  - rewrite Pos.iter_succ. cbn [digits2_pos]. lia.
Qed.

Lemma digits_shift_52 (m : positive) :
  Zpos (digits2_pos (4503599627370496 * m)) = (Zpos (digits2_pos m) + 52)%Z.
Proof.
  change (4503599627370496 * m)%positive with (Pos.iter xO m 52).
  apply digits_iter_xO.
Qed.

(** A canonical mantissa is not shifted. *)
Lemma shr_fexp_canonical (m : positive) (e : Z) :
  fexp prec emax (Z.pos (digits2_pos m) + e) = e ->
  shr_fexp prec emax (Z.pos m) e loc_Exact
  = ({| shr_m := Zpos m; shr_r := false; shr_s := false |}, e).
Proof.
  intros Hc. unfold shr_fexp, Zdigits2. rewrite Hc, Z.sub_diag. reflexivity.
Qed.

(** The product of a canonical mantissa with 2^52, at an exponent 52 lower,
    is shifted back by exactly 52 bits, and nothing is lost. *)
Lemma shr_fexp_shifted (m : positive) (e : Z) :
  fexp prec emax (Z.pos (digits2_pos m) + e) = e ->
  shr_fexp prec emax (Z.pos (4503599627370496 * m)) (e + -52) loc_Exact
  = ({| shr_m := Zpos m; shr_r := false; shr_s := false |}, e).
Proof.
  intros Hc. unfold shr_fexp, Zdigits2. rewrite digits_shift_52.
  replace (Z.pos (digits2_pos m) + 52 + (e + -52))%Z
    with (Z.pos (digits2_pos m) + e)%Z by lia.
  rewrite Hc. replace (e - (e + -52))%Z with 52%Z by lia.
  unfold shr. cbn [shr_record_of_loc]. rewrite iter_shr_52.
  f_equal. lia.
Qed.

Lemma SFmul_one (s : bool) (m : positive) (e : Z) :
  bounded prec emax m e = true ->
  SF64mul (S754_finite s m e) (S754_finite false 4503599627370496 (-52))
  = S754_finite s m e.
Proof.
  intros Hb. unfold bounded, canonical_mantissa in Hb.
  apply andb_true_iff in Hb as [Hc He]. apply Z.eqb_eq in Hc.
  unfold SF64mul, SFmul, binary_round_aux. rewrite xorb_false_r.
  rewrite Pos.mul_comm, (shr_fexp_shifted m e Hc).
  cbn [shr_m loc_of_shr_record round_nearest_even].
  rewrite (shr_fexp_canonical m e Hc). cbn [shr_m]. rewrite He. reflexivity.
Qed.

Lemma mul_1_r (x : float) : x * 1 = x.
Proof.
  apply Prim2SF_inj. rewrite mul_spec, Prim2SF_one.
  pose proof (Prim2SF_valid x) as Hv.
  destruct (Prim2SF x) as [s|s| |s m e]; cbn.
  - now rewrite xorb_false_r.
  - now rewrite xorb_false_r.
  - reflexivity.
  - now apply SFmul_one.
Qed.

(** *** Signs: negation, commutation, subtraction both ways *)

Lemma binary_round_aux_opp (s : bool) (m e : Z) (l : location) :
  binary_round_aux prec emax (negb s) m e l
  = SFopp (binary_round_aux prec emax s m e l).
Proof.
  unfold binary_round_aux.
  destruct (shr_fexp prec emax m e l) as [mrs' e'].
  destruct (shr_fexp prec emax _ e' loc_Exact) as [mrs'' e''].
  destruct (shr_m mrs''); try reflexivity.
  destruct (e'' <=? emax - prec)%Z; reflexivity.
Qed.

Lemma binary_normalize_opp (m e : Z) :
  m <> 0%Z ->
  binary_normalize prec emax (- m) e false
  = SFopp (binary_normalize prec emax m e false).
Proof.
  intros Hm. destruct m as [|p|p]; [congruence| |].
  - change (- Z.pos p)%Z with (Z.neg p).
    unfold binary_normalize, binary_round.
    destruct (shl_align _ _ _) as [mz ez]. apply (binary_round_aux_opp false).
  - change (- Z.neg p)%Z with (Z.pos p).
    unfold binary_normalize, binary_round.
    destruct (shl_align _ _ _) as [mz ez]. apply (binary_round_aux_opp true).
Qed.

Lemma SFmul_comm (x y : spec_float) : SF64mul x y = SF64mul y x.
Proof.
  destruct x as [sx|sx| |sx mx ex], y as [sy|sy| |sy my ey]; cbn;
    try reflexivity; try (now rewrite xorb_comm).
  now rewrite xorb_comm, Pos.mul_comm, Z.add_comm.
Qed.

Lemma SFmul_opp_opp (x y : spec_float) :
  SF64mul (SFopp x) (SFopp y) = SF64mul x y.
Proof.
  destruct x as [sx|sx| |sx mx ex], y as [sy|sy| |sy my ey]; cbn;
    try reflexivity; try (now destruct sx, sy).
Qed.

Lemma SFdiv_opp_l (x y : spec_float) :
  SF64div (SFopp x) y = SFopp (SF64div x y).
Proof.
  destruct x as [sx|sx| |sx mx ex], y as [sy|sy| |sy my ey]; cbn;
    try reflexivity; try (now destruct sx, sy).
  destruct (SFdiv_core_binary prec emax (Zpos mx) ex (Zpos my) ey) as [[mz ez] lz].
  replace (xorb (negb sx) sy) with (negb (xorb sx sy)) by now destruct sx, sy.
  apply binary_round_aux_opp.
Qed.

Lemma SFsub_swap (x y : spec_float) :
  SF64sub y x = SFopp (SF64sub x y) \/ SF64sub y x = SF64sub x y.
Proof.
  destruct x as [sx|sx| |sx mx ex], y as [sy|sy| |sy my ey]; cbn;
    try (now left); try (now right);
    try (destruct sx, sy; cbn; (now left) || (now right)).
  rewrite (Z.min_comm ey ex).
  set (a := cond_Zopp sx _). set (b := cond_Zopp sy _).
  destruct (Z.eq_dec (a - b)%Z 0%Z) as [E|E].
  - right. replace (b - a)%Z with 0%Z by lia. now rewrite E.
  - left. replace (b - a)%Z with (- (a - b))%Z by lia.
    now apply binary_normalize_opp.
Qed.

Lemma SFsub_diag (x : spec_float) :
  SF64sub x x = if SFfinite x then S754_zero false else S754_nan.
Proof.
  destruct x as [s|s| |s m e]; try (now destruct s); try reflexivity.
  unfold SF64sub, SFsub. set (a := cond_Zopp s _).
  now replace (a - a)%Z with 0%Z by lia.
Qed.

Lemma mul_comm (x y : float) : x * y = y * x.
Proof. apply Prim2SF_inj. rewrite !mul_spec. apply SFmul_comm. Qed.

Lemma mul_opp_opp (x y : float) : (- x) * (- y) = x * y.
Proof.
  apply Prim2SF_inj. rewrite !mul_spec, !opp_spec. apply SFmul_opp_opp.
Qed.

Lemma div_opp_l (x y : float) : (- x) / y = - (x / y).
Proof.
  apply Prim2SF_inj. rewrite opp_spec, !div_spec, opp_spec. apply SFdiv_opp_l.
Qed.

(** The two differences of two floats are opposite, or equal (both are the
    positive zero, or both a NaN). *)
Lemma sub_swap (x y : float) : y - x = - (x - y) \/ y - x = x - y.
Proof.
  destruct (SFsub_swap (Prim2SF x) (Prim2SF y)) as [H|H]; [left|right];
    apply Prim2SF_inj; rewrite ?opp_spec, !sub_spec; exact H.
Qed.

Lemma is_finite_spec (x : float) : is_finite x = SFfinite (Prim2SF x).
Proof.
  unfold is_finite. rewrite FloatAxioms.eqb_spec, sub_spec, SFsub_diag.
  destruct (SFfinite (Prim2SF x)); reflexivity.
Qed.

Lemma sub_diag (x : float) : is_finite x = true -> x - x = 0.
Proof.
  rewrite is_finite_spec. intros H. apply Prim2SF_inj.
  rewrite sub_spec, SFsub_diag, H. reflexivity.
Qed.

(** *** A product of small enough factors does not overflow *)

Lemma digits2_size (m : positive) : digits2_pos m = Pos.size m.
Proof. induction m as [m IH|m IH|]; cbn; congruence. Qed.

Lemma Zdigits2_log2 (m : Z) : (0 < m)%Z -> Zdigits2 m = (Z.log2 m + 1)%Z.
Proof.
  destruct m as [|p|p]; try lia. intros _. cbn [Zdigits2].
  rewrite digits2_size. destruct p; cbn; lia.
Qed.

Lemma digits_mul (a b : positive) :
  (Zpos (digits2_pos (a * b)) <= Zpos (digits2_pos a) + Zpos (digits2_pos b))%Z.
Proof.
  change (Zpos (digits2_pos (a * b))) with (Zdigits2 (Zpos a * Zpos b)).
  change (Zpos (digits2_pos a)) with (Zdigits2 (Zpos a)).
  change (Zpos (digits2_pos b)) with (Zdigits2 (Zpos b)).
  rewrite !Zdigits2_log2 by lia.
  pose proof (Z.log2_mul_above (Zpos a) (Zpos b) ltac:(lia) ltac:(lia)). lia.
Qed.

Lemma digits_succ (m : Z) : (0 <= m)%Z -> (Zdigits2 (m + 1) <= Zdigits2 m + 1)%Z.
Proof.
  intros H. destruct (Z.eq_dec m 0%Z) as [->|Hm]; [vm_compute; discriminate|].
  rewrite !Zdigits2_log2 by lia.
  pose proof (Z.log2_succ_le m). unfold Z.succ in *. lia.
Qed.

Lemma digits_shr_1 (r : shr_record) :
  (0 <= shr_m r)%Z ->
  Zdigits2 (shr_m (shr_1 r)) = Z.max 0 (Zdigits2 (shr_m r) - 1).
Proof.
  destruct r as [m r s]. cbn [shr_m]. intros H.
  destruct m as [|[p|p|]|p]; cbn [shr_1 shr_m Zdigits2 digits2_pos]; lia.
Qed.

Lemma digits_iter_shr_1 (p : positive) (r : shr_record) :
  (0 <= shr_m r)%Z ->
  (0 <= shr_m (SpecFloat.iter_pos shr_1 p r))%Z
  /\ Zdigits2 (shr_m (SpecFloat.iter_pos shr_1 p r))
     = Z.max 0 (Zdigits2 (shr_m r) - Zpos p).
Proof.
  revert r. induction p as [p IH|p IH|]; intros r H; cbn [SpecFloat.iter_pos].
  - pose proof (shr_1_nonneg r H) as H1. pose proof (digits_shr_1 r H) as D1.
    destruct (IH _ H1) as [H2 D2]. destruct (IH _ H2) as [H3 D3].
    split; [exact H3|]. lia.
  - destruct (IH _ H) as [H2 D2]. destruct (IH _ H2) as [H3 D3].
    split; [exact H3|]. lia.
  - split; [now apply shr_1_nonneg|]. now apply digits_shr_1.
Qed.

(** The exponent and the size of the mantissa after [shr_fexp]. *)
Lemma shr_fexp_bounds (m e : Z) (l : location) :
  (0 <= m)%Z ->
  let M := (Zdigits2 m + e)%Z in
  let r := shr_fexp prec emax m e l in
  (0 <= shr_m (fst r))%Z
  /\ snd r = Z.max e (fexp prec emax M)
  /\ (Zdigits2 (shr_m (fst r)) + snd r <= Z.max M (fexp prec emax M))%Z.
Proof.
  intros H. cbn zeta. unfold shr_fexp, shr.
  assert (H0 : shr_m (shr_record_of_loc m l) = m)
    by (destruct l as [|[]]; reflexivity).
  destruct (fexp prec emax (Zdigits2 m + e) - e)%Z as [|n|n] eqn:En;
    cbn [fst snd].
  - rewrite H0. lia.
  - destruct (digits_iter_shr_1 n (shr_record_of_loc m l)) as [H1 D1]; [lia|].
    rewrite H0 in D1. split; [exact H1|]. lia.
  - rewrite H0. lia.
Qed.

Lemma round_nearest_even_bounds (m : Z) (l : location) :
  (0 <= m)%Z ->
  (0 <= round_nearest_even m l)%Z
  /\ (Zdigits2 (round_nearest_even m l) <= Zdigits2 m + 1)%Z.
Proof.
  intros H. pose proof (digits_succ m H).
  destruct l as [|[]]; cbn [round_nearest_even]; try (split; lia).
  destruct (Z.even m); split; lia.
Qed.

Lemma binary_round_aux_finite (s : bool) (m e : Z) (l : location) :
  (0 <= m)%Z -> (e <= 971)%Z -> (Zdigits2 m + e <= 1023)%Z ->
  SFfinite (binary_round_aux prec emax s m e l) = true.
Proof.
  intros Hm He HM. unfold binary_round_aux.
  destruct (shr_fexp_bounds m e l Hm) as (H1 & E1 & D1).
  destruct (shr_fexp prec emax m e l) as [mrs' e']. cbn [fst snd] in H1, E1, D1.
  destruct (round_nearest_even_bounds (shr_m mrs') (loc_of_shr_record mrs') H1)
    as [H2 D2].
  destruct (shr_fexp_bounds _ e' loc_Exact H2) as (H3 & E3 & D3).
  destruct (shr_fexp prec emax _ e' loc_Exact) as [mrs'' e''].
  cbn [fst snd] in H3, E3, D3.
  assert (He'' : (e'' <= 971)%Z).
  { subst e'' e'. unfold fexp, emin, prec, emax in *. lia. }
  destruct (shr_m mrs'') as [|p|p]; [reflexivity| |lia].
  replace (e'' <=? emax - prec)%Z with true; [reflexivity|].
  symmetry. apply Z.leb_le. unfold emax, prec. lia.
Qed.

Lemma valid_exponent (m : positive) (e : Z) :
  bounded prec emax m e = true ->
  e = Z.max (Zpos (digits2_pos m) + e - 53) (-1074) /\ (e <= 971)%Z.
Proof.
  unfold bounded, canonical_mantissa, fexp, emin, emax, prec. intros H.
  apply andb_true_iff in H as [H1 H2]. apply Z.eqb_eq in H1. apply Z.leb_le in H2.
  lia.
Qed.

Lemma SFmag_valid (x : spec_float) :
  valid_binary x = true -> (SFmag x <= 1024)%Z.
Proof.
  destruct x as [s|s| |s m e]; cbn [SFmag valid_binary]; try lia.
  intros V. apply valid_exponent in V. lia.
Qed.

Lemma SFmul_finite (x y : spec_float) :
  valid_binary x = true -> valid_binary y = true ->
  SFfinite x = true -> SFfinite y = true ->
  (SFmag x + SFmag y <= 1023)%Z ->
  SFfinite (SF64mul x y) = true.
Proof.
  destruct x as [sx|sx| |sx mx ex], y as [sy|sy| |sy my ey];
    try discriminate; try reflexivity.
  cbn [valid_binary SFfinite SFmag]. intros Vx Vy _ _ HM.
  apply valid_exponent in Vx as [Ex Hx], Vy as [Ey Hy].
  unfold SF64mul, SFmul. apply binary_round_aux_finite; [lia|lia|].
  cbn [Zdigits2]. pose proof (digits_mul mx my). lia.
Qed.

(** The square of a float between -1 and 1, multiplied by zero, is zero. *)
Lemma bounded_square_mul_zero (c : float) :
  (abs c <=? 1) = true -> c * c * 0 = 0.
Proof.
  rewrite FloatAxioms.leb_spec, abs_spec, Prim2SF_one. intros H.
  apply Prim2SF_inj. rewrite !mul_spec, Prim2SF_zero.
  pose proof (Prim2SF_valid c) as V.
  destruct (Prim2SF c) as [s|s| |s m e]; try discriminate H.
  - destruct s; reflexivity.
  - assert (Hmag : (SFmag (S754_finite s m e) <= 1)%Z).
    { cbn [SFmag]. cbn [valid_binary] in V. apply valid_exponent in V.
      unfold SFleb in H. cbn [SFabs SFcompare] in H.
      destruct (Z.compare_spec e (-52)); try discriminate H; lia. }
    pose proof (SFmul_finite _ _ V V eq_refl eq_refl ltac:(lia)) as Hf.
    pose proof (SFmul_finite_signed s m e s m e) as Hs.
    rewrite xorb_nilpotent in Hs.
    destruct (SF64mul (S754_finite s m e) (S754_finite s m e)) as [s'|s'| |s' m' e'];
      try discriminate Hf; cbn [signed] in Hs; apply eqb_prop in Hs; subst s';
      reflexivity.
Qed.

End FloatFacts.

(** ** Weather classification *)

Module WeatherProps.
Import WeatherAnalyzer.

#[local] Open Scope float_scope.

(** C2, as stated, fails: with a wind of 35 m/s and a visibility of 700 m the
    visibility check returns first and the condition is "poor". *)
Lemma wind_35_visibility_700_is_poor :
  overall_condition (analyze_conditions 20 1013 35 (Some 700)) = "poor"
  /\ overall_condition (analyze_conditions 20 1013 35 (Some 700)) <> "dangerous".
Proof.
  split.
  - reflexivity.
  - vm_compute. discriminate.
Qed.

(** C2 (amended): a wind speed of 35 m/s makes the overall condition
    "dangerous" for every temperature and pressure and for every visibility
    outside the poor band, that is a visibility that is absent, below 500 m,
    or not below 1000 m. *)
Theorem wind_35_dangerous_outside_poor_band :
  forall temperature pressure visibility,
    poor_band visibility = false ->
    overall_condition (analyze_conditions temperature pressure 35 visibility)
    = "dangerous".
Proof.
  intros temperature pressure visibility Hband.
  unfold poor_band in Hband. cbn [analyze_conditions overall_condition].
  unfold _get_overall_condition.
  destruct (vis_below visibility (visibility_thresholds DANGEROUS)) eqn:Hd.
  - reflexivity.
  - cbn [negb andb] in Hband. rewrite Hband.
    replace (wind_thresholds DANGEROUS <? 35) with true by reflexivity.
    reflexivity.
Qed.

Lemma wind_35_dangerous_outside_poor_band_witness :
  poor_band (Some 8000) = false
  /\ overall_condition (analyze_conditions 15 1013 35 (Some 8000)) = "dangerous".
Proof.
  split.
  - reflexivity.
  - apply (wind_35_dangerous_outside_poor_band 15 1013 (Some 8000)). reflexivity.
Defined.

Lemma append_not_nil (l : list string) (x : string) : append l x <> [].
Proof. unfold append. destruct l; discriminate. Qed.

(** C10: the recommendations returned by [analyze_conditions] are never
    empty, and when no warning applies they are exactly the single
    favorable-conditions message. *)
Theorem recommendations_nonempty :
  forall temperature pressure wind_speed visibility,
    let r := recommendations
               (analyze_conditions temperature pressure wind_speed visibility) in
    r <> []
    /\ (no_warning temperature pressure wind_speed visibility = true ->
        r = [msg_favorable]).
Proof.
  intros t p w v. cbn. unfold _get_recommendations, no_warning. split.
  - destruct (wind_thresholds FAIR <? w), (p <? 1000), (1030 <? p),
      (vis_below v (visibility_thresholds GOOD)), (t <? -20), (40 <? t);
      cbn; discriminate.
  - destruct (wind_thresholds FAIR <? w), (p <? 1000), (1030 <? p),
      (vis_below v (visibility_thresholds GOOD)), (t <? -20), (40 <? t);
      cbn; intros H; try discriminate H; reflexivity.
Qed.

Lemma recommendations_nonempty_witness :
  no_warning 20 1013 5 None = true
  /\ recommendations (analyze_conditions 20 1013 5 None) = [msg_favorable].
Proof.
  split.
  - reflexivity.
  - apply (recommendations_nonempty 20 1013 5 None). reflexivity.
Defined.

End WeatherProps.

(** ** The airport registry *)

Module AirportProps.
Import AirportManager.

(** What the registry does maintain: every key is the code of the airport
    stored under it, exactly as the airport spells it. *)
Lemma keys_are_codes (self : registry) :
  reachable self ->
  forall (k : string) (a : Airport), self !! k = Some a -> k = icao_code a.
Proof.
  induction 1 as [|self airport Hr IH]; intros k a Hk.
  - unfold __init__, _load_default_airports in Hk. cbn in Hk.
    unfold add_airport in Hk. cbn in Hk.
    repeat (apply lookup_insert_Some in Hk as [[<- <-]|[_ Hk]]; [reflexivity|]).
    rewrite lookup_empty in Hk. discriminate Hk.
  - unfold add_airport in Hk.
    apply lookup_insert_Some in Hk as [[<- <-]|[_ Hk]]; [reflexivity|].
    now apply IH.
Qed.

(** C1 fails on the code: [add_airport] stores an airport under its code as
    spelled, while [get_airport] looks the uppercased code up.  After
    [add_airport] of an airport with the code "abcd" the registry has the key
    "abcd", which is not the uppercase form "ABCD", and [get_airport "abcd"]
    finds nothing. *)
Theorem add_airport_keeps_lowercase_key :
  let self := add_airport __init__ lowercase_airport in
  reachable self
  /\ self !! "abcd" = Some lowercase_airport
  /\ PyStr.upper (icao_code lowercase_airport) = "ABCD"
  /\ get_airport self "abcd" = None
  /\ ~ keys_uppercased self.
Proof.
  cbn zeta.
  assert (Hk : add_airport __init__ lowercase_airport !! "abcd"
               = Some lowercase_airport).
  { unfold add_airport. cbn [icao_code lowercase_airport].
    apply lookup_insert_eq. }
  split; [|split; [|split; [|split]]].
  - apply reachable_add, reachable_init.
  - exact Hk.
  - reflexivity.
  - vm_compute. reflexivity.
  - intros Hinv. apply Hinv in Hk. vm_compute in Hk. discriminate Hk.
Qed.

(** The haversine computation written out in
    [calculate_distance_between_airports] is the one of
    [FlightCalculator.calculate_distance]. *)
Lemma inline_haversine (M : PyMath.MathLib) (self : registry) (icao1 icao2 : string) :
  calculate_distance_between_airports M self icao1 icao2 =
  match get_airport self icao1, get_airport self icao2 with
  | Some airport1, Some airport2 =>
      res_map Some
        (FlightCalculator.calculate_distance M
           (latitude airport1) (longitude airport1)
           (latitude airport2) (longitude airport2))
  | _, _ => Ok None
  end.
Proof.
  unfold calculate_distance_between_airports.
  destruct (get_airport self icao1) as [a1|]; [|reflexivity].
  destruct (get_airport self icao2) as [a2|]; [|reflexivity].
  unfold FlightCalculator.calculate_distance, FlightCalculator.earth_radius.
  unfold res_map. cbn zeta.
  repeat (step_bind; [|reflexivity]). reflexivity.
Qed.

(** C7 fails on the code, by the defect of C1: an airport added under a code
    with lowercase letters is registered (the registry holds it under its
    key), but [get_airport] looks the uppercased code up and finds nothing,
    so [calculate_distance_between_airports] and [get_route_info] return the
    absent result [None] for it, where C7 promises the distance and the
    route.  After [add_airport] of an airport with the code "abcd", both
    "abcd" and "UUEE" are keys of the registry, and both functions return
    [None] for the pair, whatever the math library. *)
Theorem registered_lowercase_airport_has_no_route (M : PyMath.MathLib) :
  let self := add_airport __init__ lowercase_airport in
  reachable self
  /\ self !! "abcd" = Some lowercase_airport
  /\ is_Some (self !! "UUEE")
  /\ calculate_distance_between_airports M self "abcd" "UUEE" = Ok None
  /\ get_route_info M self "abcd" "UUEE" = Ok None.
Proof.
  cbn zeta.
  assert (Hk : add_airport __init__ lowercase_airport !! "abcd"
               = Some lowercase_airport).
  { unfold add_airport. cbn [icao_code lowercase_airport].
    apply lookup_insert_eq. }
  assert (Hg : get_airport (add_airport __init__ lowercase_airport) "abcd" = None)
    by (vm_compute; reflexivity).
  split; [|split; [|split; [|split]]].
  - apply reachable_add, reachable_init.
  - exact Hk.
  - eexists. vm_compute. reflexivity.
  - rewrite inline_haversine, Hg. reflexivity.
  - unfold get_route_info. rewrite Hg. reflexivity.
Qed.

(** What the two functions compute, by the outcome of the two lookups of
    [get_airport]: [None] when either lookup finds nothing; otherwise the
    haversine distance between the two airports found, and the composite of
    both airports' dictionaries, that distance, and the label made of the
    two airports' codes around an arrow. *)
Theorem distance_and_route_of_registered_airports
    (M : PyMath.MathLib) (self : registry) (code1 code2 : string) :
  let haversine (a1 a2 : Airport) :=
    FlightCalculator.calculate_distance M
      (latitude a1) (longitude a1) (latitude a2) (longitude a2) in
  calculate_distance_between_airports M self code1 code2 =
    match get_airport self code1, get_airport self code2 with
    | Some a1, Some a2 => let* d := haversine a1 a2 in Ok (Some d)
    | _, _ => Ok None
    end
  /\ get_route_info M self code1 code2 =
    match get_airport self code1, get_airport self code2 with
    | Some a1, Some a2 =>
        let* d := haversine a1 a2 in
        Ok (Some {| departure := to_dict a1;
                    arrival := to_dict a2;
                    distance_km := Some d;
                    route := icao_code a1 ++ " → " ++ icao_code a2 |})
    | _, _ => Ok None
    end.
Proof.
  cbn zeta. split.
  - apply inline_haversine.
  - unfold get_route_info. rewrite inline_haversine.
    destruct (get_airport self code1) as [a1|]; [|reflexivity].
    destruct (get_airport self code2) as [a2|]; [|reflexivity].
    unfold res_map.
    destruct (FlightCalculator.calculate_distance M _ _ _ _); reflexivity.
Qed.

End AirportProps.

(** ** Sorting *)

Module SortProps.
Import PyList.

Section Sorting.
Context {A : Type} (key : A -> float).

#[local] Open Scope float_scope.

Abbreviation not_below := (PyList.not_below key).

Lemma insert_desc_perm (x : A) (l : list A) :
  Permutation (insert_desc key x l) (x :: l).
Proof.
  induction l as [|y l IH]; cbn.
  - reflexivity.
  - destruct (key x <? key y).
    + rewrite IH. apply perm_swap.
    + reflexivity.
Qed.

Lemma sort_desc_perm (l : list A) : Permutation (sort_desc key l) l.
Proof.
  induction l as [|x l IH]; cbn.
  - reflexivity.
  - fold (sort_desc key l). rewrite insert_desc_perm. now constructor.
Qed.

Lemma not_below_trans (b : bool) (x y z : A) :
  PyFloat.is_nan (key x) = b -> PyFloat.is_nan (key y) = b ->
  not_below x y -> not_below y z -> not_below x z.
Proof.
  intros Hx Hy Hxy Hyz. destruct b.
  - now apply FloatFacts.ltb_nan_l.
  - now apply (FloatFacts.ltb_negtrans _ (key y)).
Qed.

Lemma insert_desc_sorted (b : bool) (x : A) (l : list A) :
  uniform key b (x :: l) ->
  StronglySorted not_below l ->
  StronglySorted not_below (insert_desc key x l).
Proof.
  intros Hu Hs. apply Forall_cons_1 in Hu as [Hx Hu].
  induction Hs as [|y l Hs IH Hy]; cbn.
  - repeat constructor.
  - apply Forall_cons_1 in Hu as [Hyb Hu].
    destruct (key x <? key y) eqn:Hxy.
    + constructor; [now apply IH|].
      eapply Permutation_Forall.
      * symmetry. apply insert_desc_perm.
      * constructor; [|exact Hy]. now apply FloatFacts.ltb_asym.
    + constructor; [now constructor|].
      constructor; [exact Hxy|].
      eapply Forall_impl; [exact Hy|].
      intros z Hyz. now apply (not_below_trans b x y z).
Qed.

Lemma sort_desc_sorted (b : bool) (l : list A) :
  uniform key b l -> StronglySorted not_below (sort_desc key l).
Proof.
  induction l as [|x l IH]; intros Hu; cbn.
  - constructor.
  - fold (sort_desc key l). pose proof Hu as Hu'.
    apply Forall_cons_1 in Hu' as [Hx Hl].
    apply (insert_desc_sorted b); [|now apply IH].
    constructor; [exact Hx|].
    eapply Permutation_Forall; [|exact Hl].
    symmetry. apply sort_desc_perm.
Qed.

(** Without NaNs, "not below" is "at least". *)
Lemma sorted_geq (l : list A) :
  uniform key false l ->
  StronglySorted not_below l ->
  StronglySorted (fun a b => (key b <=? key a) = true) l.
Proof.
  intros Hu Hs. induction Hs as [|x l Hs IH Hx].
  - constructor.
  - apply Forall_cons_1 in Hu as [Hxn Hu].
    constructor; [now apply IH|].
    rewrite Forall_forall in Hx, Hu |- *. intros y Hy.
    apply FloatFacts.not_ltb_leb; [exact Hxn|exact (Hu y Hy)|exact (Hx y Hy)].
Qed.

End Sorting.

End SortProps.

(** ** Fuel consumption *)

Module FuelProps.
Import FuelCalculator.

#[local] Open Scope float_scope.

Lemma lookup_default : aircraft_profiles !! "default" = Some default_profile.
Proof. reflexivity. Qed.

Lemma get_profile_selected (aircraft_type : string) :
  get_profile aircraft_type = Ok (selected_profile aircraft_type).
Proof.
  unfold get_profile, getitem, selected_profile. rewrite lookup_default. cbn.
  destruct (aircraft_profiles !! PyStr.lower aircraft_type); reflexivity.
Qed.

(** A property of every profile of the table holds of the selected profile. *)
Lemma selected_profile_ind (P : Profile -> Prop) (aircraft_type : string) :
  (forall (k : string) (p : Profile), aircraft_profiles !! k = Some p -> P p) ->
  P (selected_profile aircraft_type).
Proof.
  intros H. unfold selected_profile.
  destruct (aircraft_profiles !! PyStr.lower aircraft_type) as [p|] eqn:Hp.
  - exact (H _ _ Hp).
  - exact (H _ _ lookup_default).
Qed.

(** No cruise speed of the table is zero. *)
Lemma selected_cruise_speed_nonzero (aircraft_type : string) :
  (cruise_speed (selected_profile aircraft_type) =? 0) = false.
Proof.
  apply selected_profile_ind. intros k p Hp.
  profile_cases Hp; reflexivity.
Qed.

(** Every fuel rate of the table is a positive finite float. *)
Lemma selected_fuel_rate_finite (aircraft_type : string) :
  exists (m : positive) (e : Z),
    Prim2SF (fuel_rate (selected_profile aircraft_type)) = S754_finite false m e.
Proof.
  apply selected_profile_ind. intros k p Hp.
  profile_cases Hp; eexists _, _; reflexivity.
Qed.

(** [calculate_fuel_consumption] never raises, and returns the closed form. *)
Lemma calculate_fuel_consumption_eq
    (d : float) (aircraft_type : string) (wind_factor payload_factor : float) :
  calculate_fuel_consumption d aircraft_type wind_factor payload_factor
  = Ok (consumption_of (selected_profile aircraft_type)
          d wind_factor payload_factor).
Proof.
  unfold calculate_fuel_consumption, consumption_of.
  rewrite get_profile_selected. cbn [bind].
  unfold PyFloat.truediv at 1.
  rewrite selected_cruise_speed_nonzero. cbn [bind].
  unfold PyFloat.truediv at 1.
  replace (100 =? 0) with false by reflexivity. cbn [bind].
  destruct (0 <? d / cruise_speed (selected_profile aircraft_type)) eqn:Hft.
  - unfold PyFloat.truediv. rewrite (FloatFacts.ltb_0_neq _ Hft). reflexivity.
  - reflexivity.
Qed.

Lemma calculate_fuel_efficiency_eq (d fuel_used : float) :
  calculate_fuel_efficiency d fuel_used = Ok (efficiency_of d fuel_used).
Proof.
  unfold calculate_fuel_efficiency, efficiency_of.
  destruct (fuel_used <=? 0) eqn:Hle; [reflexivity|].
  unfold PyFloat.truediv. now rewrite (FloatFacts.not_leb_0_neq _ Hle).
Qed.

(** C3: for every distance, aircraft type and pair of factors,
    [calculate_fuel_consumption] returns (it never raises), working from the
    profile selected by the lowercased type or, failing that, the default
    profile; the result has total_fuel = (distance / 100) * adjusted rate with
    adjusted rate = fuel_rate * wind_factor * payload_factor,
    flight_time = distance / cruise_speed, fuel_per_100km = adjusted rate, and
    fuel_per_hour = total_fuel / flight_time when flight_time > 0 and 0
    otherwise. *)
Theorem fuel_consumption_result
    (d : float) (aircraft_type : string) (wind_factor payload_factor : float) :
  let profile := selected_profile aircraft_type in
  let adjusted_rate := fuel_rate profile * wind_factor * payload_factor in
  exists r : FuelConsumption,
    calculate_fuel_consumption d aircraft_type wind_factor payload_factor = Ok r
    /\ total_fuel r = (d / 100) * adjusted_rate
    /\ flight_time r = d / cruise_speed profile
    /\ fuel_per_100km r = adjusted_rate
    /\ fuel_per_hour r =
         (if 0 <? flight_time r then total_fuel r / flight_time r else 0)
    /\ distance r = d.
Proof.
  cbn zeta. eexists. split; [apply calculate_fuel_consumption_eq|].
  cbn. repeat split.
Qed.

(** C9, as stated, fails: on the boeing_737 profile with factors 1.0 the
    distances 1000 and 47 give different values of fuel_per_hour, and the
    second is not cruise_speed * fuel_rate * wind_factor * payload_factor / 100
    = 20: the quotient of two rounded numbers depends on the distance.  At
    the smallest positive float the flight time underflows to zero and
    fuel_per_hour is 0. *)
Lemma fuel_per_hour_varies_with_distance :
  (0 <? 1000) = true /\ (0 <? 47) = true /\ (0 <? 5e-324) = true
  /\ 800 * 2.5 * 1 * 1 / 100 = 20
  /\ res_map fuel_per_hour (calculate_fuel_consumption 1000 "boeing_737" 1 1)
     = Ok 20
  /\ res_map fuel_per_hour (calculate_fuel_consumption 47 "boeing_737" 1 1)
     = Ok 19.999999999999996
  /\ (19.999999999999996 =? 20) = false
  /\ res_map fuel_per_hour (calculate_fuel_consumption 5e-324 "boeing_737" 1 1)
     = Ok 0.
Proof. vm_compute. repeat split. Qed.

Lemma compare_entry_eq (d : float) (aircraft_type : string) :
  compare_entry d aircraft_type
  = Ok (entry_of (selected_profile aircraft_type) d aircraft_type).
Proof.
  unfold compare_entry. rewrite calculate_fuel_consumption_eq. cbn [bind].
  rewrite calculate_fuel_efficiency_eq. reflexivity.
Qed.

Lemma compare_loop_eq (d : float) (aircraft_types : list string) :
  compare_loop d aircraft_types
  = Ok (map (fun t => entry_of (selected_profile t) d t) aircraft_types).
Proof.
  induction aircraft_types as [|t ts IH]; cbn [compare_loop].
  - reflexivity.
  - rewrite compare_entry_eq, IH. reflexivity.
Qed.

(** The efficiency on specification floats: a NaN exactly when the distance
    is a NaN or the positive infinity.  [mc] and [ec] stand for the constant
    100, [mr] and [er] for the fuel rate. *)
Lemma SF_efficiency_nan (D : spec_float)
    (mc : positive) (ec : Z) (mr : positive) (er : Z) :
  let total :=
    SF64mul (SF64div D (S754_finite false mc ec)) (S754_finite false mr er) in
  PyFloat.SFnan
    (if SFleb total (S754_zero false) then S754_zero false else SF64div D total)
  = PyFloat.SFnan_or_pinf D.
Proof.
  cbn zeta. destruct D as [s|s| |s m e].
  - destruct s; reflexivity.
  - destruct s; reflexivity.
  - reflexivity.
  - pose proof (FloatFacts.SFdiv_finite_signed s m e false mc ec) as Hh.
    rewrite xorb_false_r in Hh.
    destruct (SF64div (S754_finite s m e) (S754_finite false mc ec))
      as [sh|sh| |sh mh eh]; cbn [PyFloat.signed] in Hh; try discriminate Hh;
      apply eqb_prop in Hh; subst sh.
    + cbn. destruct s; reflexivity.
    + cbn. destruct s; reflexivity.
    + pose proof (FloatFacts.SFmul_finite_signed s mh eh false mr er) as Ht.
      rewrite xorb_false_r in Ht. cbn [PyFloat.SFnan_or_pinf].
      destruct (SF64mul (S754_finite s mh eh) (S754_finite false mr er))
        as [st|st| |st mt et]; cbn [PyFloat.signed] in Ht; try discriminate Ht;
        apply eqb_prop in Ht; subst st.
      * reflexivity.
      * destruct s; reflexivity.
      * destruct s; [reflexivity|].
        change (SFleb (S754_finite false mt et) (S754_zero false)) with false.
        cbv iota.
        pose proof (FloatFacts.SFdiv_finite_signed false m e false mt et) as He.
        destruct (SF64div (S754_finite false m e) (S754_finite false mt et));
          cbn in He |- *; congruence.
Qed.

(** The efficiency of an entry is a NaN exactly when the distance is a NaN
    or the positive infinity, whatever the aircraft type. *)
Lemma entry_efficiency_nan (d : float) (aircraft_type : string) :
  PyFloat.is_nan (efficiency (entry_of (selected_profile aircraft_type) d aircraft_type))
  = PyFloat.nan_or_pinf d.
Proof.
  destruct (selected_fuel_rate_finite aircraft_type) as (mr & er & Hr).
  cbn [entry_of efficiency consumption_of total_fuel].
  rewrite !FloatFacts.mul_1_r.
  rewrite FloatFacts.is_nan_spec, FloatFacts.nan_or_pinf_spec.
  unfold efficiency_of. rewrite FloatAxioms.leb_spec.
  rewrite <- (SF_efficiency_nan (Prim2SF d) 7036874417766400 (-46) mr er).
  cbn zeta. rewrite <- Hr.
  change (S754_finite false 7036874417766400 (-46)) with (Prim2SF 100).
  rewrite <- !div_spec, <- mul_spec. change (S754_zero false) with (Prim2SF 0).
  destruct (SFleb _ _); [reflexivity|]. now rewrite div_spec.
Qed.

Lemma entries_uniform (d : float) (aircraft_types : list string) :
  PyList.uniform efficiency (PyFloat.nan_or_pinf d)
    (map (fun t => entry_of (selected_profile t) d t) aircraft_types).
Proof.
  unfold PyList.uniform. rewrite Forall_map, Forall_forall. intros t _.
  apply entry_efficiency_nan.
Qed.

(** The outcome of [compare_aircraft_efficiency] on the three types of the
    test fixture. *)
Lemma compare_fixture :
  compare_aircraft_efficiency 1000 ["boeing_737"; "airbus_a320"; "cessna_172"]
  = Ok [ {| aircraft_type := "cessna_172"; fuel_consumption := 8;
            efficiency := 125; entry_flight_time := 5;
            entry_fuel_per_100km := 0.8 |};
         {| aircraft_type := "airbus_a320"; fuel_consumption := 23;
            efficiency := 43.478260869565219;
            entry_flight_time := 1.2195121951219512;
            entry_fuel_per_100km := 2.3 |};
         {| aircraft_type := "boeing_737"; fuel_consumption := 25;
            efficiency := 40; entry_flight_time := 1.25;
            entry_fuel_per_100km := 2.5 |} ].
Proof. vm_compute. reflexivity. Qed.

(** C6: [compare_aircraft_efficiency 1000] on boeing_737, airbus_a320 and
    cessna_172 returns exactly three entries, in descending order of
    efficiency, cessna_172 first.  For every distance and every list of
    types it returns one entry per requested type, duplicates included, in
    descending order of efficiency: no entry is followed by one of higher
    efficiency, and every entry has at least the efficiency of each later
    one when the distance is a number (not a NaN) other than the positive
    infinity. *)
Theorem compare_sorted_by_efficiency :
  (exists e1 e2 e3 : Comparison,
      compare_aircraft_efficiency 1000
        ["boeing_737"; "airbus_a320"; "cessna_172"] = Ok [e1; e2; e3]
      /\ aircraft_type e1 = "cessna_172"
      /\ descending_geq [e1; e2; e3])
  /\ (forall (d : float) (aircraft_types : list string),
       exists results : list Comparison,
         compare_aircraft_efficiency d aircraft_types = Ok results
         /\ length results = length aircraft_types
         /\ Permutation (map aircraft_type results) aircraft_types
         /\ descending results
         /\ (PyFloat.nan_or_pinf d = false -> descending_geq results)).
Proof.
  split.
  - eexists _, _, _. split; [apply compare_fixture|]. split; [reflexivity|].
    unfold descending_geq. repeat constructor.
  - intros d ts. unfold compare_aircraft_efficiency.
    rewrite compare_loop_eq. cbn [bind].
    set (entries := map (fun t => entry_of (selected_profile t) d t) ts).
    assert (Hperm : Permutation (PyList.sort_desc efficiency entries) entries)
      by apply SortProps.sort_desc_perm.
    assert (Hsorted : descending (PyList.sort_desc efficiency entries)).
    { apply (SortProps.sort_desc_sorted efficiency (PyFloat.nan_or_pinf d)).
      apply entries_uniform. }
    eexists. split; [reflexivity|].
    split; [|split; [|split; [exact Hsorted|]]].
    + rewrite (Permutation_length Hperm). apply length_map.
    + rewrite Hperm. subst entries. rewrite map_map. cbn. now rewrite map_id.
    + intros Hd. apply SortProps.sorted_geq; [|exact Hsorted].
      eapply Permutation_Forall; [symmetry; exact Hperm|].
      rewrite <- Hd. apply entries_uniform.
Qed.

Lemma compare_sorted_by_efficiency_witness :
  PyFloat.nan_or_pinf 1000 = false
  /\ exists results : list Comparison,
       compare_aircraft_efficiency 1000 ["boeing_737"; "cessna_172"] = Ok results
       /\ descending_geq results.
Proof.
  split; [reflexivity|].
  destruct (proj2 compare_sorted_by_efficiency 1000 ["boeing_737"; "cessna_172"])
    as (results & Hr & _ & _ & _ & Hgeq).
  exists results. split; [exact Hr|]. apply Hgeq. reflexivity.
Defined.

End FuelProps.

(** ** Great-circle distance *)

Module DistanceProps.
Import FlightCalculator.

#[local] Open Scope float_scope.

Lemma truediv_2 (x : float) : PyFloat.truediv x 2 = Ok (x / 2).
Proof. reflexivity. Qed.

(** [calculate_distance] in terms of its named parts. *)
Lemma calculate_distance_parts (M : PyMath.MathLib) (lat1 lon1 lat2 lon2 : float) :
  calculate_distance M lat1 lon1 lat2 lon2 =
  let* sq1 := half_chord_sq M (PyMath.radians lat2 - PyMath.radians lat1) in
  let* c1 := PyMath.cos M (PyMath.radians lat1) in
  let* c2 := PyMath.cos M (PyMath.radians lat2) in
  let* sq2 := half_chord_sq M (PyMath.radians lon2 - PyMath.radians lon1) in
  central_distance M (sq1 + c1 * c2 * sq2).
Proof.
  unfold calculate_distance, half_chord_sq, central_distance.
  rewrite !truediv_2. cbn [bind].
  repeat (step_bind; [|reflexivity]). reflexivity.
Qed.

(** The radian measure of a finite angle is finite. *)
Lemma radians_finite (x : float) :
  PyFloat.is_finite x = true -> PyFloat.is_finite (PyMath.radians x) = true.
Proof.
  rewrite !FloatFacts.is_finite_spec. unfold PyMath.radians. rewrite mul_spec.
  change (Prim2SF (3.141592653589793 / 180))
    with (S754_finite false 5030569068109113 (-58)).
  intros Hx. apply FloatFacts.SFmul_finite;
    [apply Prim2SF_valid|reflexivity|exact Hx|reflexivity|].
  pose proof (FloatFacts.SFmag_valid _ (Prim2SF_valid x)) as Hm.
  change (PyFloat.SFmag (S754_finite false 5030569068109113 (-58))) with (-5)%Z.
  lia.
Qed.

Section WithLaws.
Variable M : PyMath.MathLib.
Hypothesis laws : PyMath.MathLibLaws M.

(** The squared sine of half a difference does not depend on the order of
    the subtraction. *)
Lemma half_chord_sq_swap (x y : float) :
  half_chord_sq M (y - x) = half_chord_sq M (x - y).
Proof.
  destruct (FloatFacts.sub_swap x y) as [E|E]; rewrite E; [|reflexivity].
  unfold half_chord_sq. rewrite !truediv_2. cbn [bind].
  rewrite FloatFacts.div_opp_l, (PyMath.sin_odd M laws). unfold res_map.
  destruct (PyMath.sin M ((x - y) / 2)) as [s|e]; cbn [bind]; [|reflexivity].
  apply (PyMath.pow_even M laws).
Qed.

Lemma half_chord_sq_zero : half_chord_sq M 0 = Ok 0.
Proof.
  unfold half_chord_sq. rewrite truediv_2. cbn [bind].
  change (0 / 2) with 0. rewrite (PyMath.sin_zero M laws). cbn [bind].
  apply (PyMath.pow_zero M laws).
Qed.

Lemma distance_symmetric (lat1 lon1 lat2 lon2 : float) :
  same_outcome (calculate_distance M lat1 lon1 lat2 lon2)
               (calculate_distance M lat2 lon2 lat1 lon1).
Proof.
  rewrite !calculate_distance_parts.
  rewrite (half_chord_sq_swap (PyMath.radians lat2) (PyMath.radians lat1)).
  rewrite (half_chord_sq_swap (PyMath.radians lon2) (PyMath.radians lon1)).
  destruct (half_chord_sq M _) as [sq1|e1]; cbn [bind]; [|exact I].
  destruct (PyMath.cos M (PyMath.radians lat1)) as [c1|e1],
           (PyMath.cos M (PyMath.radians lat2)) as [c2|e2];
    cbn [bind]; try exact I.
  destruct (half_chord_sq M _) as [sq2|e2]; cbn [bind]; [|exact I].
  rewrite (FloatFacts.mul_comm c2 c1).
  destruct (central_distance M _); cbn; [reflexivity|exact I].
Qed.

Lemma distance_zero (lat lon : float) :
  PyFloat.is_finite lat = true -> PyFloat.is_finite lon = true ->
  calculate_distance M lat lon lat lon = Ok 0.
Proof.
  intros Hlat Hlon. rewrite calculate_distance_parts.
  rewrite !FloatFacts.sub_diag by now apply radians_finite.
  rewrite half_chord_sq_zero. cbn [bind].
  destruct (PyMath.cos_bounded M laws _ (radians_finite _ Hlat)) as (c & -> & Hc).
  cbn [bind]. rewrite (FloatFacts.bounded_square_mul_zero c Hc).
  change (0 + 0) with 0. unfold central_distance.
  change (PyMath.sqrt 0) with (Ok 0). cbn [bind].
  rewrite (PyMath.asin_zero M laws). reflexivity.
Qed.

End WithLaws.

(** The small library [first_order] obeys the laws. *)
Lemma first_order_laws : PyMath.MathLibLaws PyMath.first_order.
Proof.
  split; cbn.
  - reflexivity.
  - intros x. change (2 =? 2) with true. cbv iota.
    now rewrite FloatFacts.mul_opp_opp.
  - reflexivity.
  - reflexivity.
  - reflexivity.
  - intros x _. exists 1. split; reflexivity.
Qed.

Lemma same_outcome_map {A B : Type} (f : A -> B) (r1 r2 : res A) :
  same_outcome r1 r2 -> same_outcome (res_map f r1) (res_map f r2).
Proof.
  destruct r1, r2; cbn; try tauto. now intros ->.
Qed.

(** C8: the haversine distance is symmetric in its two points, and zero
    between a point and itself.  For a math library that obeys
    [MathLibLaws], the two calls [calculate_distance a b] and
    [calculate_distance b a] end alike for all floats: they return the same
    distance, or both raise; and [calculate_distance a a] returns 0 for every
    point [a] of finite coordinates.  The same holds of the distance between
    two airports of the registry. *)
Theorem haversine_symmetric_and_zero (M : PyMath.MathLib) :
  PyMath.MathLibLaws M ->
  (forall lat1 lon1 lat2 lon2 : float,
      same_outcome (calculate_distance M lat1 lon1 lat2 lon2)
                   (calculate_distance M lat2 lon2 lat1 lon1))
  /\ (forall lat lon : float,
        PyFloat.is_finite lat = true -> PyFloat.is_finite lon = true ->
        calculate_distance M lat lon lat lon = Ok 0)
  /\ (forall (self : AirportManager.registry) (icao1 icao2 : string),
        same_outcome
          (AirportManager.calculate_distance_between_airports M self icao1 icao2)
          (AirportManager.calculate_distance_between_airports M self icao2 icao1))
  /\ (forall (self : AirportManager.registry) (icao : string)
             (airport : AirportManager.Airport),
        AirportManager.get_airport self icao = Some airport ->
        PyFloat.is_finite (AirportManager.latitude airport) = true ->
        PyFloat.is_finite (AirportManager.longitude airport) = true ->
        AirportManager.calculate_distance_between_airports M self icao icao
        = Ok (Some 0)).
Proof.
  intros laws. split; [|split; [|split]].
  - apply distance_symmetric, laws.
  - apply distance_zero, laws.
  - intros self icao1 icao2. rewrite !AirportProps.inline_haversine.
    destruct (AirportManager.get_airport self icao1) as [a1|],
             (AirportManager.get_airport self icao2) as [a2|];
      try reflexivity.
    apply same_outcome_map, distance_symmetric, laws.
  - intros self icao airport Hget Hlat Hlon.
    rewrite AirportProps.inline_haversine, Hget.
    now rewrite (distance_zero M laws _ _ Hlat Hlon).
Qed.

Lemma haversine_symmetric_and_zero_witness :
  same_outcome
    (calculate_distance PyMath.first_order 55.7558 37.6176 59.9311 30.3609)
    (calculate_distance PyMath.first_order 59.9311 30.3609 55.7558 37.6176)
  /\ (PyFloat.is_finite 55.7558 = true /\ PyFloat.is_finite 37.6176 = true
      /\ calculate_distance PyMath.first_order 55.7558 37.6176 55.7558 37.6176
         = Ok 0)
  /\ AirportManager.calculate_distance_between_airports PyMath.first_order
       AirportManager.__init__ "uuee" "uuee" = Ok (Some 0).
Proof.
  pose proof (haversine_symmetric_and_zero PyMath.first_order first_order_laws)
    as (Hsym & Hzero & _ & Hsame).
  split; [apply Hsym|]. split.
  - split; [reflexivity|]. split; [reflexivity|]. apply Hzero; reflexivity.
  - eapply Hsame; reflexivity.
Defined.

End DistanceProps.

(** ** Flight time *)

Module FlightProps.
Import FlightCalculator.

#[local] Open Scope float_scope.

(** C4: with the default wind factor 1.0, [calculate_flight_time] returns
    distance / speed for every distance and every speed above zero, and
    raises the invalid-argument error [ValueError] for every speed that is
    zero or below. *)
Theorem flight_time_default (d speed : float) :
  ((0 <? speed) = true ->
   calculate_flight_time_default d speed = Ok (d / speed))
  /\ ((speed <=? 0) = true ->
      exists msg, calculate_flight_time_default d speed = Raise (ValueError msg)).
Proof.
  unfold calculate_flight_time_default, calculate_flight_time. split.
  - intros Hpos. rewrite (FloatFacts.ltb_0_not_leb _ Hpos).
    cbn zeta. rewrite FloatFacts.mul_1_r.
    unfold PyFloat.truediv. now rewrite (FloatFacts.ltb_0_neq _ Hpos).
  - intros Hle. rewrite Hle. eexists. reflexivity.
Qed.

Lemma flight_time_default_witness :
  ((0 <? 800) = true /\ calculate_flight_time_default 1000 800 = Ok 1.25)
  /\ ((-100 <=? 0) = true /\
      exists msg, calculate_flight_time_default 1000 (-100) = Raise (ValueError msg)).
Proof.
  split; (split; [reflexivity|]).
  - apply (flight_time_default 1000 800). reflexivity.
  - apply (flight_time_default 1000 (-100)). reflexivity.
Defined.


End FlightProps.

(** ** Which calls raise *)

Module ErrorProps.
Import FlightCalculator FuelCalculator.

#[local] Open Scope float_scope.

(** The speed of sound of [calculate_mach_number] is the square root of a
    temperature that is negative above 44331 m: the call raises. *)
Lemma mach_number_raises_at_50000 :
  calculate_mach_number 800 50000 = Raise (ValueError "math domain error").
Proof. reflexivity. Qed.




End ErrorProps.

(** * Further properties *)

(** ** The registry: lookups, overwriting, growth *)

Module RegistryExtra.
Import AirportManager.

(** X1: after [add_airport], [get_airport] finds the added airport under
    every spelling of a code whose uppercase form is the code the airport
    carries, and answers as before for every other code. *)
Theorem get_airport_after_add (self : registry) (airport : Airport) (code : string) :
  (PyStr.upper code = icao_code airport ->
   get_airport (add_airport self airport) code = Some airport)
  /\ (PyStr.upper code <> icao_code airport ->
      get_airport (add_airport self airport) code = get_airport self code).
Proof.
  unfold get_airport, add_airport. split; intros H.
  - rewrite H. apply lookup_insert_eq.
  - apply lookup_insert_ne. congruence.
Qed.

Lemma get_airport_after_add_witness :
  (PyStr.upper "abcd" = "ABCD"
   /\ get_airport (add_airport __init__ (Build_Airport "ABCD" "n" "c" "k" 1 2 3)) "abcd"
      = Some (Build_Airport "ABCD" "n" "c" "k" 1 2 3))
  /\ (PyStr.upper "uuee" <> "ABCD"
      /\ get_airport (add_airport __init__ (Build_Airport "ABCD" "n" "c" "k" 1 2 3)) "uuee"
         = get_airport __init__ "uuee").
Proof.
  split; split.
  - reflexivity.
  - apply (get_airport_after_add __init__ (Build_Airport "ABCD" "n" "c" "k" 1 2 3) "abcd").
    reflexivity.
  - vm_compute. discriminate.
  - apply (get_airport_after_add __init__ (Build_Airport "ABCD" "n" "c" "k" 1 2 3) "uuee").
    vm_compute. discriminate.
Defined.

Lemma reachable_upper_reachable (self : registry) :
  reachable_upper self -> reachable self.
Proof. induction 1; now constructor. Qed.

Lemma init_keys_uppercased : keys_uppercased __init__.
Proof.
  intros k a Hk. unfold __init__, _load_default_airports in Hk. cbn in Hk.
  unfold add_airport in Hk. cbn in Hk.
  repeat (apply lookup_insert_Some in Hk as [[<- <-]|[_ Hk]]; [reflexivity|]).
  rewrite lookup_empty in Hk. discriminate Hk.
Qed.

(** X2: as long as every airport added spells its code in uppercase (as the
    ten default airports do), every key of the registry is the uppercase
    form of the code stored under it, and [get_airport] finds every stored
    airport by its own code. *)
Theorem uppercase_codes_keep_registry_searchable (self : registry) :
  reachable_upper self ->
  keys_uppercased self
  /\ (forall (k : string) (a : Airport),
        self !! k = Some a -> get_airport self (icao_code a) = Some a).
Proof.
  intros Hr.
  assert (Hinv : keys_uppercased self).
  { induction Hr as [|self airport Hr IH Hup].
    - apply init_keys_uppercased.
    - intros k a Hk. unfold add_airport in Hk.
      apply lookup_insert_Some in Hk as [[<- <-]|[_ Hk]]; [now symmetry|].
      now apply IH. }
  split; [exact Hinv|].
  intros k a Hk. unfold get_airport. now rewrite <- (Hinv k a Hk).
Qed.

Lemma uppercase_codes_keep_registry_searchable_witness :
  reachable_upper (add_airport __init__ (Build_Airport "ABCD" "n" "c" "k" 1 2 3))
  /\ keys_uppercased (add_airport __init__ (Build_Airport "ABCD" "n" "c" "k" 1 2 3)).
Proof.
  assert (H : reachable_upper
                (add_airport __init__ (Build_Airport "ABCD" "n" "c" "k" 1 2 3))).
  { constructor; [constructor|reflexivity]. }
  split; [exact H|].
  apply (uppercase_codes_keep_registry_searchable _ H).
Defined.

(** X3: [add_airport] removes no key; so in every state reached from
    [__init__] by [add_airport] the ten default codes are still found by
    [get_airport] and the registry holds ten airports at least. *)
Theorem registry_never_forgets :
  (forall (self : registry) (airport : Airport) (k : string),
      is_Some (self !! k) -> is_Some (add_airport self airport !! k))
  /\ (forall self : registry,
        reachable self ->
        Forall (fun code => is_Some (get_airport self code)) default_codes
        /\ 10 <= size self).
Proof.
  assert (Hgrow : forall (self : registry) (airport : Airport) (k : string),
             is_Some (self !! k) -> is_Some (add_airport self airport !! k)).
  { intros self airport k Hk. unfold add_airport.
    apply lookup_insert_is_Some. destruct (decide (icao_code airport = k)); auto. }
  split; [exact Hgrow|].
  induction 1 as [|self airport Hr [IHc IHs]].
  - split.
    + unfold default_codes. cbn. repeat constructor; eexists; vm_compute; reflexivity.
    + vm_compute. lia.
  - split.
    + eapply Forall_impl; [exact IHc|]. intros code Hc. now apply Hgrow.
    + unfold add_airport. rewrite map_size_insert.
      destruct (self !! icao_code airport); cbn; lia.
Qed.

Lemma registry_never_forgets_witness :
  reachable (add_airport __init__ lowercase_airport)
  /\ 10 <= size (add_airport __init__ lowercase_airport).
Proof.
  assert (H : reachable (add_airport __init__ lowercase_airport))
    by (constructor; constructor).
  split; [exact H|].
  apply (proj2 registry_never_forgets (add_airport __init__ lowercase_airport) H).
Defined.



(** X5: when [get_route_info] returns a route from one code to another, it
    returns one for the opposite direction too, with departure and arrival
    exchanged and the same distance (for every math library that obeys
    [PyMath.MathLibLaws]). *)
Theorem route_reversed (M : PyMath.MathLib) (self : registry)
    (departure arrival : string) (r : RouteInfo) :
  PyMath.MathLibLaws M ->
  get_route_info M self departure arrival = Ok (Some r) ->
  exists r' : RouteInfo,
    get_route_info M self arrival departure = Ok (Some r')
    /\ AirportManager.departure r' = AirportManager.arrival r
    /\ AirportManager.arrival r' = AirportManager.departure r
    /\ distance_km r' = distance_km r.
Proof.
  intros laws. unfold get_route_info.
  rewrite !AirportProps.inline_haversine.
  destruct (get_airport self departure) as [a1|] eqn:H1; [|discriminate].
  destruct (get_airport self arrival) as [a2|] eqn:H2; [|discriminate].
  pose proof (DistanceProps.distance_symmetric M laws
                (latitude a1) (longitude a1) (latitude a2) (longitude a2)) as Hsym.
  destruct (FlightCalculator.calculate_distance M
              (latitude a1) (longitude a1) (latitude a2) (longitude a2))
    as [d|e]; [|discriminate].
  destruct (FlightCalculator.calculate_distance M
              (latitude a2) (longitude a2) (latitude a1) (longitude a1))
    as [d'|e']; [|destruct Hsym].
  cbn in Hsym |- *. subst d'. intros [= <-]. eexists. split; [reflexivity|].
  cbn. repeat split.
Qed.

Lemma route_reversed_witness :
  exists r r' : RouteInfo,
    get_route_info PyMath.first_order __init__ "UUEE" "EGLL" = Ok (Some r)
    /\ get_route_info PyMath.first_order __init__ "EGLL" "UUEE" = Ok (Some r')
    /\ distance_km r' = distance_km r.
Proof.
  destruct (get_route_info PyMath.first_order __init__ "UUEE" "EGLL")
    as [[r|]|] eqn:Hr; try (vm_compute in Hr; discriminate Hr).
  destruct (route_reversed PyMath.first_order __init__ "UUEE" "EGLL" r
              DistanceProps.first_order_laws Hr) as (r' & Hr' & _ & _ & Hd).
  exists r, r'. repeat split; assumption.
Defined.

(** X6: [calculate_distance_between_airports] and [get_route_info] return
    [None], without an error, exactly when [get_airport] finds no airport
    for one of the two codes; a route that is returned carries the
    dictionaries of the two airports found and a distance that is not
    [None]. *)
Theorem unknown_airport_gives_none (M : PyMath.MathLib) (self : registry)
    (icao1 icao2 : string) :
  let unknown := get_airport self icao1 = None \/ get_airport self icao2 = None in
  (calculate_distance_between_airports M self icao1 icao2 = Ok None <-> unknown)
  /\ (get_route_info M self icao1 icao2 = Ok None <-> unknown)
  /\ (forall r : RouteInfo,
        get_route_info M self icao1 icao2 = Ok (Some r) ->
        exists (a1 a2 : Airport) (d : float),
          get_airport self icao1 = Some a1 /\ get_airport self icao2 = Some a2
          /\ AirportManager.departure r = to_dict a1
          /\ AirportManager.arrival r = to_dict a2
          /\ distance_km r = Some d).
Proof.
  cbn zeta. unfold get_route_info. rewrite AirportProps.inline_haversine.
  destruct (get_airport self icao1) as [a1|];
    [|repeat split; auto; discriminate].
  destruct (get_airport self icao2) as [a2|];
    [|repeat split; auto; discriminate].
  destruct (FlightCalculator.calculate_distance M _ _ _ _) as [d|e]; cbn.
  - repeat split; try discriminate; try (intros [H|H]; discriminate H).
    intros r [= <-]. exists a1, a2, d. repeat split.
  - repeat split; try discriminate; intros [H|H]; discriminate H.
Qed.

Lemma unknown_airport_gives_none_witness :
  get_route_info PyMath.first_order __init__ "UUEE" "XXXX" = Ok None.
Proof.
  apply (unknown_airport_gives_none PyMath.first_order __init__ "UUEE" "XXXX").
  right. reflexivity.
Defined.

End RegistryExtra.

(** ** More on the order of floats *)

Module FloatOrder.

#[local] Open Scope float_scope.

Lemma SFltb_trans (x y z : spec_float) :
  SFltb x y = true -> SFltb y z = true -> SFltb x z = true.
Proof.
  unfold SFltb.
  destruct x as [sx|sx| |sx mx ex], y as [sy|sy| |sy my ey],
           z as [sz|sz| |sz mz ez];
    cbn; try discriminate; try reflexivity;
    try destruct sx; try destruct sy; try destruct sz; cmp_solve.
Qed.

Lemma ltb_trans (x y z : float) :
  (x <? y) = true -> (y <? z) = true -> (x <? z) = true.
Proof. rewrite !FloatAxioms.ltb_spec. apply SFltb_trans. Qed.

(** A float below [a] is not above a bound [b] that [a] is below. *)
Lemma below_not_above (x a b : float) :
  (x <? a) = true -> (a <? b) = true -> (b <? x) = false.
Proof.
  intros Hxa Hab. destruct (b <? x) eqn:Hbx; [|reflexivity].
  pose proof (ltb_trans _ _ _ Hbx Hxa) as Hba.
  apply FloatFacts.ltb_asym in Hab. congruence.
Qed.

(** A float above [b] is not below a bound [a] that is below [b]. *)
Lemma above_not_below (x a b : float) :
  (b <? x) = true -> (a <? b) = true -> (x <? a) = false.
Proof.
  intros Hbx Hab. destruct (x <? a) eqn:Hxa; [|reflexivity].
  pose proof (ltb_trans _ _ _ Hbx Hxa) as Hba.
  apply FloatFacts.ltb_asym in Hab. congruence.
Qed.

Lemma SFleb_ltb_trans (x y z : spec_float) :
  SFleb x y = true -> SFltb y z = true -> SFltb x z = true.
Proof.
  unfold SFleb, SFltb.
  destruct x as [sx|sx| |sx mx ex], y as [sy|sy| |sy my ey],
           z as [sz|sz| |sz mz ez];
    cbn; try discriminate; try reflexivity;
    try destruct sx; try destruct sy; try destruct sz; cmp_solve.
Qed.

Lemma leb_ltb_trans (x y z : float) :
  (x <=? y) = true -> (y <? z) = true -> (x <? z) = true.
Proof.
  rewrite FloatAxioms.leb_spec, !FloatAxioms.ltb_spec. apply SFleb_ltb_trans.
Qed.

Lemma SFeqb_not_ltb (x y k : spec_float) :
  SFeqb x k = true -> SFeqb y k = true -> SFltb x y = false.
Proof.
  unfold SFeqb, SFltb.
  destruct x as [sx|sx| |sx mx ex], y as [sy|sy| |sy my ey],
           k as [sk|sk| |sk mk ek];
    cbn; try discriminate; try reflexivity;
    try destruct sx; try destruct sy; try destruct sk; cmp_solve.
Qed.

(** Two floats equal to a third are not one below the other. *)
Lemma eqb_not_ltb (x y k : float) :
  (x =? k) = true -> (y =? k) = true -> (x <? y) = false.
Proof.
  rewrite !FloatAxioms.eqb_spec, FloatAxioms.ltb_spec. apply SFeqb_not_ltb.
Qed.

(** A quotient of a float that is zero or below by a positive finite float
    is not above zero. *)
Lemma SF_nonpositive_quotient (D : spec_float) (mc : positive) (ec : Z) :
  SFleb D (S754_zero false) = true ->
  SFltb (S754_zero false) (SF64div D (S754_finite false mc ec)) = false.
Proof.
  destruct D as [s|s| |s m e]; try destruct s; try discriminate;
    try reflexivity.
  intros _.
  pose proof (FloatFacts.SFdiv_finite_signed true m e false mc ec) as Hs.
  destruct (SF64div (S754_finite true m e) (S754_finite false mc ec))
    as [s|s| |s m' e']; cbn in Hs; try discriminate Hs;
    apply eqb_prop in Hs; subst s; reflexivity.
Qed.

End FloatOrder.

(** ** Weather: labels, summaries and warnings *)

Module WeatherExtra.
Import WeatherAnalyzer.

#[local] Open Scope float_scope.

(** X7: the label [analyze_conditions] computes is one of the five values
    of [WeatherCondition] and a key of [summaries], so [get_weather_summary]
    never answers with its fallback text for a result of
    [analyze_conditions]. *)
Theorem summary_of_analysis_is_known
    (temperature pressure wind_speed : float) (visibility : option float) :
  let conditions := analyze_conditions temperature pressure wind_speed visibility in
  In (overall_condition conditions) labels
  /\ summaries !! overall_condition conditions
     = Some (get_weather_summary conditions)
  /\ get_weather_summary conditions <> summary_unknown.
Proof.
  cbn zeta. unfold get_weather_summary.
  cbn [analyze_conditions overall_condition].
  unfold _get_overall_condition. cbv zeta.
  cascade; (split; [cbn; tauto|split; [reflexivity|vm_compute; discriminate]]).
Qed.

(** X8: the label is "excellent" exactly when the wind is below 10, the
    pressure deviates from 1013 by less than 20, the visibility is absent or
    above 10000, and the temperature is neither below -40 nor above 50. *)
Theorem excellent_exactly
    (temperature pressure wind_speed : float) (visibility : option float) :
  overall_condition
    (analyze_conditions temperature pressure wind_speed visibility) = "excellent"
  <-> excellent_inputs temperature pressure wind_speed visibility = true.
Proof.
  cbn [analyze_conditions overall_condition].
  unfold _get_overall_condition, excellent_inputs. cbv zeta.
  change (visibility_thresholds DANGEROUS) with 500.
  change (visibility_thresholds POOR) with 1000.
  change (visibility_thresholds EXCELLENT) with 10000.
  change (wind_thresholds DANGEROUS) with 30.
  change (wind_thresholds POOR) with 25.
  change (wind_thresholds EXCELLENT) with 10.
  change (wind_thresholds GOOD) with 15.
  remember (abs (pressure - 1013)) as dev eqn:Hdev. clear Hdev.
  destruct (wind_speed <? 10) eqn:Hw.
  - rewrite (FloatOrder.below_not_above wind_speed 10 30 Hw eq_refl).
    rewrite (FloatOrder.below_not_above wind_speed 10 25 Hw eq_refl).
    destruct (dev <? 20) eqn:Hd.
    + rewrite (FloatOrder.below_not_above dev 20 50 Hd eq_refl).
      destruct visibility as [v|]; cbn [vis_below andb].
      * destruct (10000 <? v) eqn:Hv.
        -- rewrite (FloatOrder.above_not_below v 500 10000 Hv eq_refl).
           rewrite (FloatOrder.above_not_below v 1000 10000 Hv eq_refl).
           destruct (temperature <? -40), (50 <? temperature); cbn;
             split; intros H; try reflexivity; discriminate H.
        -- cbn. split; [|discriminate].
           destruct (v <? 500), (v <? 1000), (temperature <? -40),
             (50 <? temperature), (wind_speed <? 15), (dev <? 30);
             cbn; discriminate.
      * destruct (temperature <? -40), (50 <? temperature); cbn;
          split; intros H; try reflexivity; discriminate H.
    + cbn [andb]. split; [|discriminate].
      destruct (vis_below visibility 500), (vis_below visibility 1000),
        (50 <? dev), (temperature <? -40), (50 <? temperature),
        (wind_speed <? 15), (dev <? 30); cbn; discriminate.
  - cbn [andb]. split; [|discriminate].
    destruct (vis_below visibility 500), (vis_below visibility 1000),
      (30 <? wind_speed), (25 <? wind_speed),
      (50 <? dev), (temperature <? -40), (50 <? temperature),
      (wind_speed <? 15), (dev <? 30); cbn; discriminate.
Qed.

(** X9: the label is "dangerous" exactly when the visibility is below 500,
    or the wind is above 30 and the visibility is absent or not below 1000;
    temperature and pressure never make a condition dangerous. *)
Theorem dangerous_exactly
    (temperature pressure wind_speed : float) (visibility : option float) :
  overall_condition
    (analyze_conditions temperature pressure wind_speed visibility) = "dangerous"
  <-> dangerous_inputs wind_speed visibility = true.
Proof.
  cbn [analyze_conditions overall_condition].
  unfold _get_overall_condition, dangerous_inputs. cbv zeta.
  change (visibility_thresholds DANGEROUS) with 500.
  change (visibility_thresholds POOR) with 1000.
  change (wind_thresholds DANGEROUS) with 30.
  destruct (vis_below visibility 500); [cbn; tauto|].
  destruct (vis_below visibility 1000); cbn [orb negb andb];
    [split; discriminate|].
  destruct (30 <? wind_speed); [cbn; tauto|].
  split; [|discriminate].
  cascade; cbn; discriminate.
Qed.

Lemma excellent_exactly_witness :
  excellent_inputs 15 1013 5 (Some 12000) = true
  /\ overall_condition (analyze_conditions 15 1013 5 (Some 12000)) = "excellent".
Proof.
  split; [reflexivity|].
  apply (excellent_exactly 15 1013 5 (Some 12000)). reflexivity.
Defined.

Lemma dangerous_exactly_witness :
  dangerous_inputs 35 None = true
  /\ overall_condition (analyze_conditions 15 1013 35 None) = "dangerous".
Proof.
  split; [reflexivity|].
  apply (dangerous_exactly 15 1013 35 None). reflexivity.
Defined.

(** X10: label and recommendations agree on the wind: above 25 m/s the
    strong-wind warning is issued and the label is "poor" or "dangerous";
    under a label "excellent" or "good" the strong-wind warning is never
    issued. *)
Theorem strong_wind_warning_matches_label
    (temperature pressure wind_speed : float) (visibility : option float) :
  let conditions := analyze_conditions temperature pressure wind_speed visibility in
  ((25 <? wind_speed) = true ->
   In msg_strong_wind (recommendations conditions)
   /\ (overall_condition conditions = "poor"
       \/ overall_condition conditions = "dangerous"))
  /\ (overall_condition conditions = "excellent"
      \/ overall_condition conditions = "good" ->
      ~ In msg_strong_wind (recommendations conditions)).
Proof.
  cbn zeta. cbn [analyze_conditions overall_condition recommendations].
  unfold _get_overall_condition, _get_recommendations. cbv zeta.
  change (visibility_thresholds DANGEROUS) with 500.
  change (visibility_thresholds POOR) with 1000.
  change (visibility_thresholds EXCELLENT) with 10000.
  change (visibility_thresholds GOOD) with 5000.
  change (wind_thresholds DANGEROUS) with 30.
  change (wind_thresholds POOR) with 25.
  change (wind_thresholds EXCELLENT) with 10.
  change (wind_thresholds GOOD) with 15.
  change (wind_thresholds FAIR) with 20.
  remember (abs (pressure - 1013)) as dev eqn:Hdev. clear Hdev.
  split.
  - intros Hw. rewrite Hw.
    rewrite (FloatOrder.ltb_trans 20 25 wind_speed eq_refl Hw).
    split.
    + destruct (pressure <? 1000), (1030 <? pressure),
        (vis_below visibility 5000), (temperature <? -20), (40 <? temperature);
        cbn; tauto.
    + destruct (vis_below visibility 500), (vis_below visibility 1000),
        (30 <? wind_speed); cbn; tauto.
  - intros Hlabel.
    assert (Hw : (wind_speed <? 15) = true).
    { destruct (wind_speed <? 15) eqn:H15; [reflexivity|].
      assert (H10 : (wind_speed <? 10) = false).
      { destruct (wind_speed <? 10) eqn:H10; [|reflexivity].
        pose proof (FloatOrder.below_not_above wind_speed 10 15 H10 eq_refl).
        destruct (15 <? wind_speed) eqn:E; [discriminate|].
        exfalso. clear Hlabel.
        assert (Hn : PyFloat.is_nan wind_speed = false).
        { destruct (PyFloat.is_nan wind_speed) eqn:En; [|reflexivity].
          rewrite (FloatFacts.ltb_nan_l wind_speed 10 En) in H10. discriminate. }
        pose proof (FloatOrder.ltb_trans wind_speed 10 15 H10 eq_refl). congruence. }
      rewrite H10 in Hlabel. cbn [andb] in Hlabel.
      destruct (vis_below visibility 500), (vis_below visibility 1000),
        (30 <? wind_speed), (25 <? wind_speed), (50 <? dev),
        (temperature <? -40), (50 <? temperature);
        cbn in Hlabel; destruct Hlabel; discriminate. }
    rewrite (FloatOrder.below_not_above wind_speed 15 20 Hw eq_refl).
    destruct (pressure <? 1000), (1030 <? pressure),
      (vis_below visibility 5000), (temperature <? -20), (40 <? temperature);
      cbn; intuition discriminate.
Qed.

Lemma strong_wind_warning_matches_label_witness :
  ((25 <? 28) = true
   /\ In msg_strong_wind (recommendations (analyze_conditions 15 1013 28 None)))
  /\ (overall_condition (analyze_conditions 15 1013 12 None) = "good"
      /\ ~ In msg_strong_wind (recommendations (analyze_conditions 15 1013 12 None))).
Proof.
  split; (split; [reflexivity|]).
  - apply (strong_wind_warning_matches_label 15 1013 28 None). reflexivity.
  - apply (strong_wind_warning_matches_label 15 1013 12 None). right. reflexivity.
Defined.

(** X11: the list of recommendations has no duplicate and at most four
    entries, never holds both pressure warnings or both temperature
    warnings, and holds the favourable message only as its single entry. *)
Theorem recommendations_are_consistent
    (temperature pressure wind_speed : float) (visibility : option float) :
  let r := recommendations
             (analyze_conditions temperature pressure wind_speed visibility) in
  List.NoDup r
  /\ length r <= 4
  /\ ~ (In msg_low_pressure r /\ In msg_high_pressure r)
  /\ ~ (In msg_extreme_cold r /\ In msg_extreme_heat r)
  /\ (In msg_favorable r -> r = [msg_favorable]).
Proof.
  cbn zeta. cbn [analyze_conditions recommendations].
  unfold _get_recommendations. cbv zeta.
  destruct (wind_thresholds FAIR <? wind_speed), (pressure <? 1000),
    (1030 <? pressure), (vis_below visibility (visibility_thresholds GOOD)),
    (temperature <? -20), (40 <? temperature);
    (split;
     [repeat (apply List.NoDup_cons; [vm_compute; intuition discriminate|]);
      apply List.NoDup_nil|];
     split; [cbn; lia|];
     vm_compute; intuition discriminate).
Qed.

Lemma recommendations_are_consistent_witness :
  In msg_favorable (recommendations (analyze_conditions 15 1013 5 None))
  /\ recommendations (analyze_conditions 15 1013 5 None) = [msg_favorable].
Proof.
  split; [left; reflexivity|].
  apply (recommendations_are_consistent 15 1013 5 None). left. reflexivity.
Defined.

(** The deviation of a NaN pressure from 1013 compares false with
    everything. *)
Lemma nan_deviation (pressure k : float) :
  PyFloat.is_nan pressure = true ->
  (abs (pressure - 1013) <? k) = false /\ (k <? abs (pressure - 1013)) = false.
Proof.
  rewrite FloatFacts.is_nan_spec, !FloatAxioms.ltb_spec, abs_spec, sub_spec.
  destruct (Prim2SF pressure); try discriminate. intros _.
  split; [reflexivity|]. destruct (Prim2SF k) as [| | |[]]; reflexivity.
Qed.

Lemma ltb_nan_r (x y : float) : PyFloat.is_nan y = true -> (x <? y) = false.
Proof.
  rewrite FloatFacts.is_nan_spec, FloatAxioms.ltb_spec.
  destruct (Prim2SF y); try discriminate. intros _.
  destruct (Prim2SF x) as [| | |[]]; reflexivity.
Qed.

(** X12: a NaN wind speed or a NaN pressure is never rated better than
    "fair"; yet NaN readings raise no warning: with NaN temperature, pressure
    and wind speed, and no visibility below 5000, the only recommendation is
    the favourable message. *)
Theorem nan_readings
    (temperature pressure wind_speed : float) (visibility : option float) :
  let conditions := analyze_conditions temperature pressure wind_speed visibility in
  (PyFloat.is_nan wind_speed = true \/ PyFloat.is_nan pressure = true ->
   overall_condition conditions = "fair"
   \/ overall_condition conditions = "poor"
   \/ overall_condition conditions = "dangerous")
  /\ (PyFloat.is_nan temperature = true -> PyFloat.is_nan pressure = true ->
      PyFloat.is_nan wind_speed = true ->
      vis_below visibility 5000 = false ->
      recommendations conditions = [msg_favorable]).
Proof.
  cbn zeta. cbn [analyze_conditions overall_condition recommendations].
  unfold _get_overall_condition, _get_recommendations. cbv zeta. split.
  - intros Hnan.
    assert (H : (wind_speed <? wind_thresholds EXCELLENT)
                && (abs (pressure - 1013) <? 20) = false
                /\ (wind_speed <? wind_thresholds GOOD)
                   && (abs (pressure - 1013) <? 30) = false).
    { destruct Hnan as [Hw|Hp].
      - rewrite !(FloatFacts.ltb_nan_l wind_speed _ Hw). split; reflexivity.
      - rewrite (proj1 (nan_deviation pressure 20 Hp)),
          (proj1 (nan_deviation pressure 30 Hp)), !andb_false_r.
        split; reflexivity. }
    destruct H as [-> ->]. cbn [andb]. cascade; cbn; tauto.
  - intros Ht Hp Hw Hv.
    rewrite (ltb_nan_r _ wind_speed Hw), (FloatFacts.ltb_nan_l pressure _ Hp),
      (ltb_nan_r _ pressure Hp), (FloatFacts.ltb_nan_l temperature _ Ht),
      (ltb_nan_r _ temperature Ht).
    change (visibility_thresholds GOOD) with 5000. rewrite Hv. reflexivity.
Qed.

Lemma nan_readings_witness :
  PyFloat.is_nan nan = true
  /\ overall_condition (analyze_conditions 15 1013 nan None) = "fair"
  /\ recommendations (analyze_conditions nan nan nan None) = [msg_favorable].
Proof.
  split; [reflexivity|]. split.
  - destruct (proj1 (nan_readings 15 1013 nan None) (or_introl eq_refl))
      as [H|[H|H]]; [exact H|discriminate H|discriminate H].
  - apply (nan_readings nan nan nan None); reflexivity.
Defined.

(** X13: between the bands the visibility does not change the label: two
    visibilities that are neither below 1000 nor above 10000 give the same
    label (the thresholds 5000 and 2000 play no part in it). *)
Theorem label_ignores_visibility_between_bands
    (temperature pressure wind_speed v1 v2 : float) :
  (v1 <? 1000) = false -> (10000 <? v1) = false ->
  (v2 <? 1000) = false -> (10000 <? v2) = false ->
  overall_condition
    (analyze_conditions temperature pressure wind_speed (Some v1))
  = overall_condition
      (analyze_conditions temperature pressure wind_speed (Some v2)).
Proof.
  intros L1 U1 L2 U2.
  assert (D : forall v, (v <? 1000) = false -> (v <? 500) = false).
  { intros v Hv. destruct (v <? 500) eqn:E; [|reflexivity].
    rewrite (FloatOrder.ltb_trans v 500 1000 E eq_refl) in Hv. discriminate. }
  cbn [analyze_conditions overall_condition].
  unfold _get_overall_condition. cbv zeta. cbn [vis_below].
  change (visibility_thresholds DANGEROUS) with 500.
  change (visibility_thresholds POOR) with 1000.
  change (visibility_thresholds EXCELLENT) with 10000.
  rewrite (D v1 L1), (D v2 L2), L1, L2, U1, U2. reflexivity.
Qed.

Lemma label_ignores_visibility_between_bands_witness :
  overall_condition (analyze_conditions 15 1013 12 (Some 1000))
  = overall_condition (analyze_conditions 15 1013 12 (Some 10000))
  /\ overall_condition (analyze_conditions 15 1013 12 (Some 1000)) = "good".
Proof.
  split; [|reflexivity].
  apply (label_ignores_visibility_between_bands 15 1013 12 1000 10000);
    reflexivity.
Defined.

End WeatherExtra.

(** ** Fuel: agreement between the functions *)

Module FuelExtra.
Import FuelCalculator.

#[local] Open Scope float_scope.

Lemma fuel_rates_agree :
  FlightCalculator.fuel_rates = fuel_rate <$> aircraft_profiles.
Proof. vm_compute. reflexivity. Qed.

(** X14: the two fuel calculators agree: for every distance and aircraft
    type, [FlightCalculator.calculate_fuel_consumption] returns the
    [total_fuel] of [FuelCalculator.calculate_fuel_consumption] at the
    default factors 1.0, and neither raises. *)
Theorem fuel_calculators_agree (d : float) (aircraft_type : string) :
  exists r : FuelConsumption,
    calculate_fuel_consumption d aircraft_type 1.0 1.0 = Ok r
    /\ FlightCalculator.calculate_fuel_consumption d aircraft_type
       = Ok (total_fuel r).
Proof.
  eexists. split; [apply FuelProps.calculate_fuel_consumption_eq|].
  unfold FlightCalculator.calculate_fuel_consumption, FlightCalculator.getitem.
  rewrite fuel_rates_agree, !lookup_fmap.
  rewrite FuelProps.lookup_default. cbn [fmap option_fmap option_map bind].
  change (PyFloat.truediv d 100) with (Ok (d / 100)). cbn [bind].
  cbn [consumption_of total_fuel]. rewrite !FloatFacts.mul_1_r.
  unfold selected_profile.
  destruct (aircraft_profiles !! PyStr.lower aircraft_type); reflexivity.
Qed.

(** Every cruise speed of the table is a positive finite float. *)
Lemma selected_cruise_speed_finite (aircraft_type : string) :
  exists (m : positive) (e : Z),
    Prim2SF (cruise_speed (selected_profile aircraft_type)) = S754_finite false m e.
Proof.
  apply FuelProps.selected_profile_ind. intros k p Hp.
  profile_cases Hp; eexists _, _; reflexivity.
Qed.

(** X15: for a distance of zero or below, [calculate_fuel_consumption]
    returns a flight time that is not above zero and the hourly rate 0,
    whatever the aircraft type and the factors. *)
Theorem no_hourly_rate_without_flight_time
    (d : float) (aircraft_type : string) (wind_factor payload_factor : float) :
  (d <=? 0) = true ->
  exists r : FuelConsumption,
    calculate_fuel_consumption d aircraft_type wind_factor payload_factor = Ok r
    /\ (0 <? flight_time r) = false
    /\ fuel_per_hour r = 0.
Proof.
  intros Hd. eexists. split; [apply FuelProps.calculate_fuel_consumption_eq|].
  cbn [consumption_of flight_time fuel_per_hour].
  assert (H : (0 <? d / cruise_speed (selected_profile aircraft_type)) = false).
  { destruct (selected_cruise_speed_finite aircraft_type) as (m & e & Hcs).
    rewrite FloatAxioms.ltb_spec, div_spec, Hcs, FloatFacts.Prim2SF_zero.
    apply FloatOrder.SF_nonpositive_quotient.
    rewrite FloatAxioms.leb_spec, FloatFacts.Prim2SF_zero in Hd. exact Hd. }
  rewrite H. split; reflexivity.
Qed.

Lemma no_hourly_rate_without_flight_time_witness :
  (-250 <=? 0) = true
  /\ exists r : FuelConsumption,
       calculate_fuel_consumption (-250) "boeing_737" 1.1 0.9 = Ok r
       /\ (0 <? flight_time r) = false
       /\ fuel_per_hour r = 0.
Proof.
  split; [reflexivity|].
  apply (no_hourly_rate_without_flight_time (-250) "boeing_737" 1.1 0.9).
  reflexivity.
Defined.

(** X16: the profile [get_aircraft_info] reports is the one the
    consumption is computed from: it is the default profile for a type the
    table lacks, its fuel rate is the [fuel_per_100km] of the consumption at
    factors 1.0, and the flight time of the consumption is
    [FlightCalculator.calculate_flight_time] at its cruise speed. *)
Theorem reported_profile_is_used (d : float) (aircraft_type : string) :
  exists (info : Profile) (r : FuelConsumption),
    get_aircraft_info aircraft_type = Ok info
    /\ (aircraft_profiles !! PyStr.lower aircraft_type = None ->
        info = default_profile)
    /\ calculate_fuel_consumption d aircraft_type 1.0 1.0 = Ok r
    /\ fuel_per_100km r = fuel_rate info
    /\ FlightCalculator.calculate_flight_time_default d (cruise_speed info)
       = Ok (flight_time r).
Proof.
  exists (selected_profile aircraft_type). eexists.
  split; [apply FuelProps.get_profile_selected|].
  split; [unfold selected_profile; now intros ->|].
  split; [apply FuelProps.calculate_fuel_consumption_eq|].
  cbn [consumption_of fuel_per_100km flight_time].
  split; [now rewrite !FloatFacts.mul_1_r|].
  apply FuelProps.selected_profile_ind. intros k p Hp.
  profile_cases Hp; reflexivity.
Qed.

Lemma reported_profile_is_used_witness :
  aircraft_profiles !! PyStr.lower "Zeppelin" = None
  /\ get_aircraft_info "Zeppelin" = Ok default_profile.
Proof.
  split; [reflexivity|].
  destruct (reported_profile_is_used 1000 "Zeppelin") as (info & r & Hi & Hd & _).
  rewrite Hi. f_equal. apply Hd. reflexivity.
Defined.

(** The speed [calculate_optimal_speed] answers for a profile. *)
Lemma calculate_optimal_speed_eq (aircraft_type : string) (d : float) :
  calculate_optimal_speed aircraft_type d =
  Ok (let cs := cruise_speed (selected_profile aircraft_type) in
      if d <? 1000 then cs * 0.9 else if d <? 3000 then cs * 0.95 else cs).
Proof.
  unfold calculate_optimal_speed. rewrite FuelProps.get_profile_selected.
  cbn [bind]. destruct (d <? 1000); [|destruct (d <? 3000)]; reflexivity.
Qed.

(** X17: [calculate_optimal_speed] answers a speed between 0.9 times the
    cruise speed of the profile and that cruise speed, and a longer distance
    never gets a lower speed. *)
Theorem optimal_speed_bounds (aircraft_type : string) :
  let cs := cruise_speed (selected_profile aircraft_type) in
  (forall d : float,
      exists v, calculate_optimal_speed aircraft_type d = Ok v
                /\ (cs * 0.9 <=? v) = true /\ (v <=? cs) = true)
  /\ (forall d1 d2 : float,
        (d1 <=? d2) = true ->
        exists v1 v2,
          calculate_optimal_speed aircraft_type d1 = Ok v1
          /\ calculate_optimal_speed aircraft_type d2 = Ok v2
          /\ (v1 <=? v2) = true).
Proof.
  cbn zeta. split.
  - intros d. rewrite calculate_optimal_speed_eq. eexists. split; [reflexivity|].
    cbn zeta. apply FuelProps.selected_profile_ind. intros k p Hp.
    profile_cases Hp; cbn [cruise_speed];
      destruct (d <? 1000); [|destruct (d <? 3000)| |destruct (d <? 3000)
        | |destruct (d <? 3000)| |destruct (d <? 3000)| |destruct (d <? 3000)
        | |destruct (d <? 3000)]; split; reflexivity.
  - intros d1 d2 Hle. rewrite !calculate_optimal_speed_eq.
    eexists _, _. split; [reflexivity|]. split; [reflexivity|]. cbn zeta.
    assert (H1 : (d2 <? 1000) = true -> (d1 <? 1000) = true)
      by apply (FloatOrder.leb_ltb_trans _ _ _ Hle).
    assert (H3 : (d2 <? 3000) = true -> (d1 <? 3000) = true)
      by apply (FloatOrder.leb_ltb_trans _ _ _ Hle).
    apply FuelProps.selected_profile_ind. intros k p Hp.
    destruct (d2 <? 1000); [rewrite (H1 eq_refl)|];
      [|destruct (d2 <? 3000); [rewrite (H3 eq_refl)|]];
      destruct (d1 <? 1000); try destruct (d1 <? 3000);
      profile_cases Hp; reflexivity.
Qed.

Lemma optimal_speed_bounds_witness :
  (500 <=? 2000) = true
  /\ exists v1 v2 : float,
       calculate_optimal_speed "boeing_737" 500 = Ok v1
       /\ calculate_optimal_speed "boeing_737" 2000 = Ok v2
       /\ (v1 <=? v2) = true.
Proof.
  split; [reflexivity|].
  apply (proj2 (optimal_speed_bounds "boeing_737") 500 2000). reflexivity.
Defined.

End FuelExtra.

Module SortExtra.
Import PyList.

Section Stability.
Context {A : Type} (key : A -> float).

#[local] Open Scope float_scope.

(** Inserting keeps the order of the elements whose key equals [k]. *)
Lemma insert_desc_filter (k : float) (x : A) (l : list A) :
  List.filter (fun a => key a =? k) (insert_desc key x l)
  = List.filter (fun a => key a =? k) (x :: l).
Proof.
  induction l as [|y l IH]; [reflexivity|].
  cbn [insert_desc]. destruct (key x <? key y) eqn:Hlt; [|reflexivity].
  cbn [List.filter] in *. rewrite IH.
  destruct (key x =? k) eqn:Hx, (key y =? k) eqn:Hy; try reflexivity.
  rewrite (FloatOrder.eqb_not_ltb _ _ _ Hx Hy) in Hlt. discriminate.
Qed.

Lemma sort_desc_filter (k : float) (l : list A) :
  List.filter (fun a => key a =? k) (sort_desc key l)
  = List.filter (fun a => key a =? k) l.
Proof.
  induction l as [|x l IH]; [reflexivity|].
  cbn [sort_desc fold_right]. fold (sort_desc key l).
  rewrite insert_desc_filter. cbn [List.filter]. now rewrite IH.
Qed.

End Stability.
End SortExtra.

Module CompareExtra.
Import FuelCalculator.
#[local] Open Scope float_scope.

Lemma filter_map_entries (d k : float) (ts : list string) :
  map aircraft_type
    (List.filter (fun e => efficiency e =? k)
       (map (fun t => entry_of (selected_profile t) d t) ts))
  = List.filter
      (fun t => efficiency (entry_of (selected_profile t) d t) =? k) ts.
Proof.
  induction ts as [|t ts IH]; [reflexivity|].
  cbn [map List.filter].
  destruct (efficiency (entry_of (selected_profile t) d t) =? k);
    cbn [map]; now rewrite IH.
Qed.

(** X18: [compare_aircraft_efficiency] is stable: for every efficiency
    value, the types whose efficiency equals it come in the result in the
    order of the request. *)
Theorem compare_keeps_request_order_of_ties
    (d k : float) (aircraft_types : list string) :
  exists results : list Comparison,
    compare_aircraft_efficiency d aircraft_types = Ok results
    /\ map aircraft_type (List.filter (fun e => efficiency e =? k) results)
       = List.filter
           (fun t => efficiency (entry_of (selected_profile t) d t) =? k)
           aircraft_types.
Proof.
  unfold compare_aircraft_efficiency. rewrite FuelProps.compare_loop_eq.
  cbn [bind]. eexists. split; [reflexivity|].
  rewrite SortExtra.sort_desc_filter. apply filter_map_entries.
Qed.

End CompareExtra.

(** ** Rounding does not lose a float that is large enough *)

Module RoundingLower.
Import PyFloat.

Lemma digits_pos (m : Z) : (0 < m)%Z -> (1 <= Zdigits2 m)%Z.
Proof.
  intros H. rewrite FloatFacts.Zdigits2_log2 by exact H.
  pose proof (Z.log2_nonneg m). lia.
Qed.

Lemma pos_of_digits (m : Z) : (0 <= m)%Z -> (1 <= Zdigits2 m)%Z -> (0 < m)%Z.
Proof. destruct m; cbn; lia. Qed.

Lemma digits_mono (a b : Z) :
  (0 < a)%Z -> (a <= b)%Z -> (Zdigits2 a <= Zdigits2 b)%Z.
Proof.
  intros Ha Hab. rewrite !FloatFacts.Zdigits2_log2 by lia.
  pose proof (Z.log2_le_mono a b Hab). lia.
Qed.

Lemma digits_mul_below (a b : positive) :
  (Zpos (digits2_pos a) + Zpos (digits2_pos b) - 1
   <= Zpos (digits2_pos (a * b)))%Z.
Proof.
  change (Zpos (digits2_pos (a * b))) with (Zdigits2 (Zpos a * Zpos b)).
  change (Zpos (digits2_pos a)) with (Zdigits2 (Zpos a)).
  change (Zpos (digits2_pos b)) with (Zdigits2 (Zpos b)).
  rewrite !FloatFacts.Zdigits2_log2 by lia.
  pose proof (Z.log2_mul_below (Zpos a) (Zpos b) ltac:(lia) ltac:(lia)). lia.
Qed.

(** Above the smallest subnormal, the shift of [shr_fexp] keeps a mantissa
    above zero and the magnitude. *)
Lemma shr_fexp_lower (m e : Z) (l : location) :
  (0 < m)%Z -> (-1073 <= Zdigits2 m + e)%Z ->
  let r := shr_fexp prec emax m e l in
  (0 < shr_m (fst r))%Z
  /\ (Zdigits2 (shr_m (fst r)) + snd r = Zdigits2 m + e)%Z.
Proof.
  intros Hm HM. cbn zeta. unfold shr_fexp, shr.
  assert (H0 : shr_m (shr_record_of_loc m l) = m)
    by (destruct l as [|[]]; reflexivity).
  destruct (fexp prec emax (Zdigits2 m + e) - e)%Z as [|n|n] eqn:En;
    cbn [fst snd]; try (rewrite H0; lia).
  destruct (FloatFacts.digits_iter_shr_1 n (shr_record_of_loc m l)) as [H1 D1];
    [lia|].
  rewrite H0 in D1. unfold fexp, SpecFloat.emin, prec, emax in En.
  split; [apply pos_of_digits; [exact H1|]|]; lia.
Qed.

Lemma round_nearest_even_lower (m : Z) (l : location) :
  (0 < m)%Z ->
  (0 < round_nearest_even m l)%Z
  /\ (Zdigits2 m <= Zdigits2 (round_nearest_even m l))%Z.
Proof.
  intros H. pose proof (digits_mono m (m + 1) H ltac:(lia)).
  destruct l as [|[]]; cbn [round_nearest_even]; try (split; lia).
  destruct (Z.even m); split; lia.
Qed.

(** A mantissa above zero of magnitude -1073 or more rounds to an infinity
    or to a finite float of that magnitude at least, never to a zero. *)
Lemma binary_round_aux_lower (s : bool) (m e : Z) (l : location) :
  (0 < m)%Z -> (-1073 <= Zdigits2 m + e)%Z ->
  binary_round_aux prec emax s m e l = S754_infinity s
  \/ (Zdigits2 m + e <= SFmag (binary_round_aux prec emax s m e l))%Z.
Proof.
  intros Hm HM. unfold binary_round_aux.
  destruct (shr_fexp_lower m e l Hm HM) as (H1 & D1).
  destruct (shr_fexp prec emax m e l) as [mrs' e']. cbn [fst snd] in H1, D1.
  destruct (round_nearest_even_lower (shr_m mrs') (loc_of_shr_record mrs') H1)
    as [H2 D2].
  destruct (shr_fexp_lower _ e' loc_Exact H2 ltac:(lia)) as (H3 & D3).
  destruct (shr_fexp prec emax _ e' loc_Exact) as [mrs'' e''].
  cbn [fst snd] in H3, D3.
  destruct (shr_m mrs'') as [|p|p]; try lia.
  destruct (e'' <=? emax - prec)%Z; [right|left; reflexivity].
  cbn [SFmag]. cbn [Zdigits2] in D3. lia.
Qed.

(** The product of two finite floats that are not zeros is no zero when the
    magnitudes allow it. *)
Lemma SFmul_lower (sx : bool) (mx : positive) (ex : Z)
    (sy : bool) (my : positive) (ey : Z) :
  let x := S754_finite sx mx ex in
  let y := S754_finite sy my ey in
  (-1072 <= SFmag x + SFmag y)%Z ->
  SFeqb (SF64mul x y) (S754_zero false) = false.
Proof.
  cbn zeta. cbn [SFmag]. intros HM. unfold SF64mul, SFmul.
  pose proof (digits_mul_below mx my) as Hd.
  destruct (binary_round_aux_lower (xorb sx sy) (Zpos (mx * my)) (ex + ey)
              loc_Exact ltac:(lia) ltac:(cbn [Zdigits2]; lia)) as [->|H].
  - destruct (xorb sx sy); reflexivity.
  - cbn [Zdigits2] in H.
    destruct (binary_round_aux prec emax (xorb sx sy) (Z.pos (mx * my))
                (ex + ey) loc_Exact) as [s|s| |s m e];
      cbn [SFmag] in H; try lia; destruct s; reflexivity.
Qed.

Lemma shiftl_pos (m s : positive) : (0 < Z.shiftl (Zpos m) (Zpos s))%Z.
Proof. rewrite Z.shiftl_mul_pow2 by lia. pose proof (Z.pow_pos_nonneg 2 (Zpos s)). lia. Qed.

(** The square root of a finite float above zero is an infinity or a finite
    float that is no zero. *)
Lemma SFsqrt_lower (m : positive) (e : Z) :
  (-1074 <= e)%Z ->
  let r := SF64sqrt (S754_finite false m e) in
  r = S754_infinity false \/ (-1073 <= SFmag r)%Z.
Proof.
  intros He. cbn zeta. unfold SF64sqrt, SFsqrt.
  destruct (SFsqrt_core_binary prec emax (Z.pos m) e) as [[mz ez] lz] eqn:H.
  assert (Hq : (0 < mz)%Z /\ (-1074 <= ez)%Z).
  { unfold SFsqrt_core_binary in H.
    change IntDef.Z.div2 with Z.div2 in H. change IntDef.Z.min with Z.min in H.
    change IntDef.Z.shiftl with Z.shiftl in H.
    rewrite !Z.div2_div in H.
    set (e' := Z.min _ (e / 2)) in H.
    assert (He' : (-1074 <= e' /\ 2 * e' <= e)%Z).
    { subst e'. unfold fexp, SpecFloat.emin, prec, emax.
      pose proof (Z.div_mod e 2 ltac:(lia)).
      pose proof (Z.mod_pos_bound e 2 ltac:(lia)). lia. }
    assert (Hm' : exists p : positive,
               match (e - 2 * e')%Z with
               | 0%Z => Z.pos m
               | Z.pos _ => Z.shiftl (Z.pos m) (e - 2 * e')
               | Z.neg _ => 0%Z
               end = Zpos p).
    { destruct (e - 2 * e')%Z as [|s|s] eqn:Es; [now exists m| |lia].
      pose proof (shiftl_pos m s).
      destruct (Z.shiftl (Z.pos m) (Z.pos s)) as [|p|p]; try lia. now exists p. }
    destruct Hm' as [p Hp]. rewrite Hp in H. cbn [IntDef.Z.sqrtrem] in H.
    destruct (PosDef.Pos.sqrtrem p) as [q []]; inversion H; subst; lia. }
  destruct Hq as [Hmz Hez].
  pose proof (digits_pos mz Hmz) as Hd.
  destruct (binary_round_aux_lower false mz ez lz Hmz ltac:(lia)) as [->|Hl];
    [now left|right; lia].
Qed.

End RoundingLower.

Module FlightExtra.
Import FlightCalculator PyFloat.
#[local] Open Scope float_scope.

(** Above zero the speed of sound is not zero. *)
Lemma sound_speed_nonzero (t : float) :
  (0 <? t) = true -> (20.05 * PrimFloat.sqrt t =? 0) = false.
Proof.
  rewrite FloatAxioms.ltb_spec, FloatAxioms.eqb_spec, mul_spec, sqrt_spec,
    FloatFacts.Prim2SF_zero.
  pose proof (Prim2SF_valid t) as V.
  destruct (Prim2SF t) as [s|s| |s m e]; try destruct s; try discriminate;
    intros _; [reflexivity|].
  cbn [valid_binary] in V. apply FloatFacts.valid_exponent in V as [Ee _].
  destruct (RoundingLower.SFsqrt_lower m e ltac:(lia)) as [->|Hl];
    [reflexivity|].
  pose proof (FloatFacts.binary_round_aux_signed false) as Hs.
  destruct (SF64sqrt (S754_finite false m e)) as [s|s| |s m' e'];
    cbn [SFmag] in Hl; try lia.
  change (Prim2SF 20.05) with (S754_finite false 5643573283048653 (-48)).
  apply RoundingLower.SFmul_lower. cbn [SFmag digits2_pos]. cbn. lia.
Qed.

Lemma sqrtrem_nonneg (n : Z) : (0 <= fst (IntDef.Z.sqrtrem n))%Z.
Proof.
  destruct n as [|p|p]; cbn; try lia.
  destruct (PosDef.Pos.sqrtrem p) as [s []]; cbn; lia.
Qed.

(** The square root is a NaN for a NaN and for an argument below zero only. *)
Lemma SFsqrt_nan (x : spec_float) :
  SFnan (SF64sqrt x) = SFnan x || SFltb x (S754_zero false).
Proof.
  destruct x as [s|s| |s m e]; try destruct s; try reflexivity.
  unfold SF64sqrt, SFsqrt.
  destruct (SFsqrt_core_binary prec emax (Z.pos m) e) as [[mz ez] lz] eqn:H.
  assert (Hmz : (0 <= mz)%Z).
  { unfold SFsqrt_core_binary in H.
    match type of H with
    | context [IntDef.Z.sqrtrem ?n] =>
        pose proof (sqrtrem_nonneg n) as Hq;
        destruct (IntDef.Z.sqrtrem n) as [q r]
    end.
    cbn [fst] in Hq. now inversion H; subst. }
  pose proof (FloatFacts.binary_round_aux_signed false mz ez lz Hmz) as Hs.
  destruct (binary_round_aux prec emax false mz ez lz); try discriminate Hs;
    reflexivity.
Qed.

(** [math.sqrt] raises exactly below zero. *)
Lemma sqrt_domain (x : float) :
  PyMath.sqrt x = if x <? 0 then Raise (ValueError "math domain error")
                  else Ok (PrimFloat.sqrt x).
Proof.
  unfold PyMath.sqrt.
  rewrite !FloatFacts.is_nan_spec, sqrt_spec, SFsqrt_nan, FloatAxioms.ltb_spec,
    FloatFacts.Prim2SF_zero.
  destruct (Prim2SF x) as [s|s| |s m e]; try destruct s; reflexivity.
Qed.

(** The square root of a zero is a zero, and so is its product with a
    finite float. *)
Lemma sound_speed_zero (c t : float) :
  SFfinite (Prim2SF c) = true -> (t =? 0) = true ->
  (c * PrimFloat.sqrt t =? 0) = true.
Proof.
  rewrite !FloatAxioms.eqb_spec, mul_spec, sqrt_spec, FloatFacts.Prim2SF_zero.
  destruct (Prim2SF t) as [s|s| |s m e]; try destruct s; try discriminate;
    destruct (Prim2SF c) as [s'|s'| |s' m' e']; try discriminate;
    intros _ _; try destruct s'; reflexivity.
Qed.

(** X19: the four outcomes of [calculate_mach_number], by the temperature
    288.15 - 0.0065 * altitude: below zero the square root raises
    [ValueError]; at zero the speed of sound is zero and the division raises
    [ZeroDivisionError]; above zero the Mach number is returned; for a NaN
    it is a NaN. *)
Theorem mach_number_outcomes (speed altitude : float) :
  let temperature := 288.15 - 0.0065 * altitude in
  ((temperature <? 0) = true ->
   calculate_mach_number speed altitude
   = Raise (ValueError "math domain error"))
  /\ ((temperature =? 0) = true ->
      calculate_mach_number speed altitude
      = Raise (ZeroDivisionError "float division by zero"))
  /\ ((0 <? temperature) = true ->
      calculate_mach_number speed altitude
      = Ok (speed / 3.6 / (20.05 * PrimFloat.sqrt temperature)))
  /\ (is_nan temperature = true ->
      exists mach : float,
        calculate_mach_number speed altitude = Ok mach /\ is_nan mach = true).
Proof.
  cbn zeta. unfold calculate_mach_number. rewrite sqrt_domain.
  remember (288.15 - 0.0065 * altitude) as t eqn:Ht. clear Ht.
  split; [|split; [|split]].
  - intros ->. reflexivity.
  - intros H0.
    assert (Hlt : (t <? 0) = false).
    { revert H0. rewrite FloatAxioms.eqb_spec, FloatAxioms.ltb_spec.
      unfold SFeqb, SFltb. destruct (SFcompare _ _) as [[]|]; congruence. }
    rewrite Hlt. cbn [bind].
    change (truediv speed 3.6) with (Ok (speed / 3.6)). cbn [bind].
    unfold truediv. now rewrite sound_speed_zero.
  - intros Hpos. rewrite (FloatFacts.ltb_asym _ _ Hpos). cbn [bind].
    change (truediv speed 3.6) with (Ok (speed / 3.6)). cbn [bind].
    unfold truediv. now rewrite sound_speed_nonzero.
  - intros Hnan. rewrite (FloatFacts.ltb_nan_l _ _ Hnan). cbn [bind].
    change (truediv speed 3.6) with (Ok (speed / 3.6)). cbn [bind].
    rewrite FloatFacts.is_nan_spec in Hnan.
    assert (Ht : Prim2SF t = S754_nan)
      by (destruct (Prim2SF t); try discriminate; reflexivity).
    assert (Hm : Prim2SF (20.05 * PrimFloat.sqrt t) = S754_nan).
    { rewrite mul_spec, sqrt_spec, Ht. reflexivity. }
    unfold truediv. rewrite FloatAxioms.eqb_spec, Hm. cbn.
    eexists. split; [reflexivity|].
    rewrite FloatFacts.is_nan_spec, div_spec, Hm.
    destruct (Prim2SF (speed / 3.6)); reflexivity.
Qed.

Lemma mach_number_outcomes_witness :
  calculate_mach_number 800 50000 = Raise (ValueError "math domain error")
  /\ calculate_mach_number 800 44330.769230769227
     = Raise (ZeroDivisionError "float division by zero")
  /\ calculate_mach_number 800 10000
     = Ok (800 / 3.6 / (20.05 * PrimFloat.sqrt (288.15 - 0.0065 * 10000)))
  /\ exists mach : float,
       calculate_mach_number 800 nan = Ok mach /\ is_nan mach = true.
Proof.
  split; [|split; [|split]].
  - apply (mach_number_outcomes 800 50000). reflexivity.
  - apply (mach_number_outcomes 800 44330.769230769227). reflexivity.
  - apply (mach_number_outcomes 800 10000). reflexivity.
  - apply (mach_number_outcomes 800 nan). reflexivity.
Defined.

(** X20: the validation of [calculate_flight_time] lets a NaN speed
    through: no error is raised and the flight time returned is a NaN. *)
Theorem flight_time_lets_nan_speed_through (distance speed wind_factor : float) :
  is_nan speed = true ->
  exists t : float,
    calculate_flight_time distance speed wind_factor = Ok t
    /\ is_nan t = true.
Proof.
  intros Hnan. unfold calculate_flight_time, truediv.
  rewrite FloatFacts.is_nan_spec in Hnan.
  assert (Hs : Prim2SF speed = S754_nan)
    by (destruct (Prim2SF speed); try discriminate; reflexivity).
  assert (Hm : Prim2SF (speed * wind_factor) = S754_nan).
  { rewrite mul_spec, Hs. reflexivity. }
  rewrite FloatAxioms.leb_spec, FloatAxioms.eqb_spec, Hs, Hm. cbn.
  eexists. split; [reflexivity|].
  rewrite FloatFacts.is_nan_spec, div_spec, Hm.
  destruct (Prim2SF distance); reflexivity.
Qed.

Lemma flight_time_lets_nan_speed_through_witness :
  is_nan nan = true
  /\ exists t : float,
       calculate_flight_time 1000 nan 1.0 = Ok t /\ is_nan t = true.
Proof.
  split; [reflexivity|].
  apply (flight_time_lets_nan_speed_through 1000 nan 1.0). reflexivity.
Defined.

End FlightExtra.

(** ** The error of one rounding *)

Module RoundingError.
Import PyFloat.

Lemma shr_1_half (r : shr_record) :
  (0 <= shr_m r)%Z -> shr_m (shr_1 r) = (shr_m r / 2)%Z.
Proof.
  destruct r as [m r s]. cbn [shr_m]. intros H.
  destruct m as [|[p|p|]|p]; cbn [shr_1 shr_m]; try lia; try reflexivity.
  - apply (Z.div_unique (Z.pos p~1) 2 (Z.pos p) 1); lia.
  - apply (Z.div_unique (Z.pos p~0) 2 (Z.pos p) 0); lia.
Qed.

Lemma iter_shr_1_div (p : positive) (r : shr_record) :
  (0 <= shr_m r)%Z ->
  shr_m (SpecFloat.iter_pos shr_1 p r) = (shr_m r / 2 ^ Zpos p)%Z.
Proof.
  revert r. induction p as [p IH|p IH|]; intros r H; cbn [SpecFloat.iter_pos].
  - pose proof (FloatFacts.shr_1_nonneg r H) as H1.
    pose proof (FloatFacts.iter_shr_1_nonneg p _ H1) as H2.
    rewrite (IH _ H2), (IH _ H1), (shr_1_half r H).
    rewrite !Z.div_div by lia. f_equal.
    replace (Z.pos p~1) with (Z.pos p + Z.pos p + 1)%Z by lia.
    rewrite !Z.pow_add_r by lia. rewrite Z.pow_1_r. ring.
  - pose proof (FloatFacts.iter_shr_1_nonneg p _ H) as H2.
    rewrite (IH _ H2), (IH _ H).
    rewrite !Z.div_div by lia. f_equal.
    replace (Z.pos p~0) with (Z.pos p + Z.pos p)%Z by lia.
    rewrite !Z.pow_add_r by lia. ring.
  - rewrite (shr_1_half r H). now rewrite Z.pow_1_r.
Qed.

(** [shr_fexp] divides the mantissa by a power of two. *)
Lemma shr_fexp_div (m e : Z) (l : location) :
  (0 <= m)%Z ->
  let n := Z.max 0 (fexp prec emax (Zdigits2 m + e) - e) in
  shr_m (fst (shr_fexp prec emax m e l)) = (m / 2 ^ n)%Z
  /\ snd (shr_fexp prec emax m e l) = (e + n)%Z.
Proof.
  intros H. cbn zeta. unfold shr_fexp, shr.
  assert (H0 : shr_m (shr_record_of_loc m l) = m)
    by (destruct l as [|[]]; reflexivity).
  destruct (fexp prec emax (Zdigits2 m + e) - e)%Z as [|n|n];
    cbn [fst snd].
  - rewrite H0. cbn. rewrite Z.div_1_r. lia.
  - rewrite iter_shr_1_div by (rewrite H0; exact H). rewrite H0.
    replace (Z.max 0 (Z.pos n)) with (Z.pos n) by lia. split; reflexivity.
  - rewrite H0. replace (Z.max 0 (Z.neg n)) with 0%Z by lia.
    cbn. rewrite Z.div_1_r. lia.
Qed.

Lemma round_nearest_even_cases (m : Z) (l : location) :
  round_nearest_even m l = m \/ round_nearest_even m l = (m + 1)%Z.
Proof.
  destruct l as [|[]]; cbn [round_nearest_even]; auto.
  destruct (IntDef.Z.even m); auto.
Qed.

Lemma digits_div_pow2 (m n : Z) :
  (0 < m)%Z -> (0 <= n)%Z -> (n < Zdigits2 m)%Z ->
  Zdigits2 (m / 2 ^ n) = (Zdigits2 m - n)%Z /\ (0 < m / 2 ^ n)%Z.
Proof.
  intros Hm Hn Hd. rewrite FloatFacts.Zdigits2_log2 in Hd by exact Hm.
  assert (Hq : (0 < m / 2 ^ n)%Z).
  { apply Z.div_str_pos. split; [apply Z.pow_pos_nonneg; lia|].
    apply Z.log2_le_pow2; lia. }
  split; [|exact Hq].
  rewrite !FloatFacts.Zdigits2_log2 by assumption.
  rewrite <- Z.shiftr_div_pow2 by exact Hn.
  rewrite Z.log2_shiftr by exact Hm. lia.
Qed.

(** A mantissa of 53 digits or more, in the range of the normal numbers, is
    rounded to a mantissa of 53 digits; the result lies within two units of
    the last place kept below the mantissa and one above it. *)
Lemma binary_round_aux_error (s : bool) (m e : Z) (l : location) :
  let n := (Zdigits2 m - 53)%Z in
  (0 < m)%Z -> (0 <= n)%Z -> (-1074 <= e + n)%Z -> (Zdigits2 m + e <= 1023)%Z ->
  exists (mr : positive) (k : Z),
    binary_round_aux prec emax s m e l = S754_finite s mr (e + k)
    /\ Zdigits2 (Zpos mr) = 53%Z
    /\ (n <= k <= n + 1)%Z
    /\ (m - 2 * 2 ^ n <= Zpos mr * 2 ^ k <= m + 2 ^ n)%Z.
Proof.
  cbn zeta. intros Hm Hn Hlo Hhi.
  unfold binary_round_aux.
  destruct (shr_fexp_div m e l ltac:(lia)) as [M1 E1].
  replace (Z.max 0 (fexp prec emax (Zdigits2 m + e) - e))
    with (Zdigits2 m - 53)%Z in M1, E1
    by (unfold fexp, SpecFloat.emin, prec, emax; lia).
  destruct (shr_fexp prec emax m e l) as [mrs' e']. cbn [fst snd] in M1, E1.
  set (n := (Zdigits2 m - 53)%Z) in *.
  destruct (digits_div_pow2 m n Hm Hn ltac:(lia)) as [D1 P1].
  rewrite <- M1 in D1, P1.
  assert (Hdiv : (2 ^ n * shr_m mrs' <= m < 2 ^ n * (shr_m mrs' + 1))%Z).
  { rewrite M1. pose proof (Z.pow_pos_nonneg 2 n ltac:(lia) Hn) as Hp.
    pose proof (Z.mul_div_le m (2 ^ n) Hp).
    pose proof (Z.mul_succ_div_gt m (2 ^ n) Hp). lia. }
  set (m2 := round_nearest_even (shr_m mrs') (loc_of_shr_record mrs')).
  assert (H2 : m2 = shr_m mrs' \/ m2 = (shr_m mrs' + 1)%Z)
    by apply round_nearest_even_cases.
  assert (D2 : (53 <= Zdigits2 m2 <= 54)%Z).
  { destruct H2 as [-> | ->]; [lia|].
    pose proof (FloatFacts.digits_succ (shr_m mrs') ltac:(lia)).
    pose proof (RoundingLower.digits_mono (shr_m mrs') (shr_m mrs' + 1) P1 ltac:(lia)).
    lia. }
  assert (P2 : (0 < m2)%Z) by lia.
  destruct (shr_fexp_div m2 e' loc_Exact ltac:(lia)) as [M3 E3].
  replace (Z.max 0 (fexp prec emax (Zdigits2 m2 + e') - e'))
    with (Zdigits2 m2 - 53)%Z in M3, E3
    by (unfold fexp, SpecFloat.emin, prec, emax; lia).
  destruct (shr_fexp prec emax m2 e' loc_Exact) as [mrs'' e''].
  cbn [fst snd] in M3, E3.
  set (n2 := (Zdigits2 m2 - 53)%Z) in *.
  destruct (digits_div_pow2 m2 n2 P2 ltac:(lia) ltac:(lia)) as [D3 P3].
  rewrite <- M3 in D3, P3.
  destruct (shr_m mrs'') as [|mr|mr] eqn:Emr; try lia.
  replace (e'' <=? emax - prec)%Z with true
    by (symmetry; apply Z.leb_le; unfold emax, prec; lia).
  exists mr, (n + n2)%Z. split; [f_equal; lia|]. split; [lia|].
  split; [lia|].
  assert (H3 : (2 ^ n2 * Z.pos mr <= m2 < 2 ^ n2 * (Z.pos mr + 1))%Z).
  { rewrite M3. pose proof (Z.pow_pos_nonneg 2 n2 ltac:(lia) ltac:(lia)) as Hp.
    pose proof (Z.mul_div_le m2 (2 ^ n2) Hp).
    pose proof (Z.mul_succ_div_gt m2 (2 ^ n2) Hp). lia. }
  rewrite Z.pow_add_r by lia.
  pose proof (Z.pow_pos_nonneg 2 n ltac:(lia) Hn) as Hp.
  assert (Hn2 : n2 = 0%Z \/ n2 = 1%Z) by lia.
  destruct Hn2 as [-> | ->]; cbn in H3 |- *; nia.
Qed.

End RoundingError.

Module RoundingQ.
Import PyFloat FloatValue.

#[local] Open Scope Q_scope.

Lemma pow2_pos (e : Z) : 0 < 2 ^ e.
Proof. apply Qpower_0_lt. reflexivity. Qed.

Lemma pow2_add (a b : Z) : 2 ^ (a + b) == 2 ^ a * 2 ^ b.
Proof. apply Qpower_plus. discriminate. Qed.

Lemma pow2_inject (k : Z) : (0 <= k)%Z -> 2 ^ k == inject_Z (2 ^ k).
Proof. intros H. now rewrite Zpower_Qpower. Qed.

Lemma inject_nonneg (z : Z) : (0 <= z)%Z -> 0 <= inject_Z z.
Proof. intros H. unfold Qle. cbn. lia. Qed.

(** Integer bounds on a mantissa, read as bounds on the value. *)
Lemma scaled_bounds (c1 c2 : Z) (R M : Z) (P : Q) :
  0 <= P ->
  (c1 * M <= 4503599627370496 * R)%Z ->
  (4503599627370496 * R <= c2 * M)%Z ->
  inject_Z c1 * ulp * (inject_Z M * P) <= inject_Z R * P
  /\ inject_Z R * P <= inject_Z c2 * ulp * (inject_Z M * P).
Proof.
  intros HP H1 H2.
  rewrite Zle_Qle, !inject_Z_mult in H1, H2.
  assert (Hu : inject_Z 4503599627370496 * ulp == 1) by reflexivity.
  set (N := inject_Z 4503599627370496) in *.
  assert (HN : 0 < N) by reflexivity.
  assert (Hup : 0 < ulp) by reflexivity.
  assert (HuP : 0 <= ulp * P) by (apply Qmult_le_0_compat; [now apply Qlt_le_weak|exact HP]).
  assert (E : N * inject_Z R * (ulp * P) == inject_Z R * P).
  { transitivity (N * ulp * (inject_Z R * P)); [ring|]. rewrite Hu. ring. }
  pose proof (Qmult_le_compat_r _ _ _ H1 HuP) as L1.
  pose proof (Qmult_le_compat_r _ _ _ H2 HuP) as L2.
  split; lra.
Qed.

Lemma digits_53_bounds (m : positive) :
  Zpos (digits2_pos m) = 53%Z ->
  (4503599627370496 <= Zpos m < 9007199254740992)%Z.
Proof.
  intros H. change (Zpos (digits2_pos m)) with (Zdigits2 (Zpos m)) in H.
  rewrite FloatFacts.Zdigits2_log2 in H by lia.
  pose proof (Z.log2_spec (Zpos m) ltac:(lia)) as Hs.
  replace (Z.log2 (Z.pos m)) with 52%Z in Hs by lia.
  exact Hs.
Qed.

Lemma digits_lower (m : Z) :
  (0 < m)%Z -> (2 ^ (Zdigits2 m - 1) <= m)%Z.
Proof.
  intros H. rewrite FloatFacts.Zdigits2_log2 by exact H.
  replace (Z.log2 m + 1 - 1)%Z with (Z.log2 m) by lia.
  apply (Z.log2_spec m H).
Qed.

Lemma value_of_finite (m : positive) (e k : Z) :
  (0 <= k)%Z ->
  SF2Q (S754_finite false m (e + k)) == inject_Z (Zpos m * 2 ^ k) * 2 ^ e.
Proof.
  intros Hk. cbn [SF2Q]. cbv zeta.
  rewrite pow2_add, inject_Z_mult, (pow2_inject k Hk). ring.
Qed.

(** The product of two normal floats above zero: one rounding. *)
Lemma SFmul_close (mx : positive) (ex : Z) (my : positive) (ey : Z) :
  let x := S754_finite false mx ex in
  let y := S754_finite false my ey in
  Zpos (digits2_pos mx) = 53%Z -> Zpos (digits2_pos my) = 53%Z ->
  (-1126 <= ex + ey <= 917)%Z ->
  exists (mr : positive) (er : Z),
    SF64mul x y = S754_finite false mr er
    /\ Zpos (digits2_pos mr) = 53%Z
    /\ (ex + ey + 52 <= er <= ex + ey + 54)%Z
    /\ (1 - 2 * ulp) * (SF2Q x * SF2Q y) <= SF2Q (S754_finite false mr er)
    /\ SF2Q (S754_finite false mr er) <= (1 + ulp) * (SF2Q x * SF2Q y).
Proof.
  cbn zeta. intros Dx Dy He. unfold SF64mul, SFmul. cbn [xorb].
  pose proof (RoundingLower.digits_mul_below mx my) as Hlo.
  pose proof (FloatFacts.digits_mul mx my) as Hhi.
  change (Zpos (digits2_pos (mx * my))) with (Zdigits2 (Zpos (mx * my))) in Hlo, Hhi.
  destruct (RoundingError.binary_round_aux_error false (Zpos (mx * my)) (ex + ey)
              loc_Exact ltac:(lia) ltac:(lia) ltac:(lia) ltac:(lia))
    as (mr & k & -> & Dr & Hk & Hb).
  exists mr, (ex + ey + k)%Z. split; [reflexivity|]. split; [exact Dr|].
  split; [lia|].
  pose proof (digits_lower (Zpos (mx * my)) ltac:(lia)) as Hd.
  set (n := (Zdigits2 (Z.pos (mx * my)) - 53)%Z) in *.
  replace (Zdigits2 (Z.pos (mx * my)) - 1)%Z with (52 + n)%Z in Hd by lia.
  rewrite Z.pow_add_r in Hd by lia. change (2 ^ 52)%Z with 4503599627370496%Z in Hd.
  pose proof (Z.pow_pos_nonneg 2 n ltac:(lia) ltac:(lia)) as Hp.
  destruct (scaled_bounds 4503599627370494 4503599627370497
              (Zpos mr * 2 ^ k) (Zpos (mx * my)) (2 ^ (ex + ey))
              ltac:(apply Qlt_le_weak, pow2_pos) ltac:(lia) ltac:(lia))
    as [B1 B2].
  assert (EV : SF2Q (S754_finite false mx ex) * SF2Q (S754_finite false my ey)
               == inject_Z (Zpos (mx * my)) * 2 ^ (ex + ey)).
  { cbn [SF2Q]. cbv zeta. rewrite pow2_add, Pos2Z.inj_mul, inject_Z_mult. ring. }
  rewrite (value_of_finite mr (ex + ey) k ltac:(lia)), EV.
  split.
  - eapply Qle_trans; [|exact B1]. apply Qmult_le_compat_r.
    + apply Qle_bool_imp_le. reflexivity.
    + apply Qmult_le_0_compat; [apply inject_nonneg; lia|apply Qlt_le_weak, pow2_pos].
  - eapply Qle_trans; [exact B2|]. apply Qmult_le_compat_r.
    + apply Qle_bool_imp_le. reflexivity.
    + apply Qmult_le_0_compat; [apply inject_nonneg; lia|apply Qlt_le_weak, pow2_pos].
Qed.

(** The quotient of two normal floats above zero: the integer quotient is
    truncated, then rounded. *)
Lemma SFdiv_close (mx : positive) (ex : Z) (my : positive) (ey : Z) :
  let x := S754_finite false mx ex in
  let y := S754_finite false my ey in
  Zpos (digits2_pos mx) = 53%Z -> Zpos (digits2_pos my) = 53%Z ->
  (-1021 <= ex - ey <= 1022)%Z ->
  exists (mr : positive) (er : Z),
    SF64div x y = S754_finite false mr er
    /\ Zpos (digits2_pos mr) = 53%Z
    /\ (ex - ey - 53 <= er <= ex - ey - 51)%Z
    /\ (1 - 3 * ulp) * SF2Q x <= SF2Q (S754_finite false mr er) * SF2Q y
    /\ SF2Q (S754_finite false mr er) * SF2Q y <= (1 + ulp) * SF2Q x.
Proof.
  cbn zeta. intros Dx Dy He. unfold SF64div, SFdiv, SFdiv_core_binary.
  cbn [xorb Zdigits2]. rewrite Dx, Dy.
  change IntDef.Z.min with Z.min. change IntDef.Z.shiftl with Z.shiftl.
  change IntDef.Z.div_eucl with Z.div_eucl.
  replace (Z.min (fexp prec emax (53 + ex - (53 + ey))) (ex - ey))
    with (ex - ey - 53)%Z
    by (unfold fexp, SpecFloat.emin, prec, emax; lia).
  replace (ex - ey - (ex - ey - 53))%Z with 53%Z by lia.
  rewrite Z.shiftl_mul_pow2 by lia.
  change (2 ^ 53)%Z with 9007199254740992%Z.
  pose proof (digits_53_bounds mx Dx) as Bx.
  pose proof (digits_53_bounds my Dy) as By.
  pose proof (Z_div_mod (Z.pos mx * 9007199254740992) (Z.pos my) ltac:(lia)) as Hdm.
  destruct (Z.div_eucl (Z.pos mx * 9007199254740992) (Z.pos my)) as [q r].
  destruct Hdm as [Eq Hr].
  assert (Hq : (4503599627370496 <= q < 18014398509481984)%Z) by nia.
  assert (Dq : (53 <= Zdigits2 q <= 54)%Z).
  { rewrite FloatFacts.Zdigits2_log2 by lia.
    pose proof (proj1 (Z.log2_le_pow2 q 52 ltac:(lia)) ltac:(cbn; lia)).
    pose proof (proj1 (Z.log2_lt_pow2 q 54 ltac:(lia)) ltac:(cbn; lia)).
    lia. }
  destruct (RoundingError.binary_round_aux_error false q (ex - ey - 53)
              (new_location (Z.pos my) r)
              ltac:(lia) ltac:(lia) ltac:(lia) ltac:(lia))
    as (mr & k & -> & Dr & Hk & Hb).
  exists mr, (ex - ey - 53 + k)%Z. split; [reflexivity|]. split; [exact Dr|].
  split; [lia|].
  pose proof (digits_lower q ltac:(lia)) as Hd.
  set (n := (Zdigits2 q - 53)%Z) in *.
  replace (Zdigits2 q - 1)%Z with (52 + n)%Z in Hd by lia.
  rewrite Z.pow_add_r in Hd by lia. change (2 ^ 52)%Z with 4503599627370496%Z in Hd.
  pose proof (Z.pow_pos_nonneg 2 n ltac:(lia) ltac:(lia)) as Hp.
  set (P := (2 ^ n)%Z) in *. set (R := (Z.pos mr * 2 ^ k)%Z) in *.
  assert (HA : (4503599627370496 * (P * Z.pos my) <= q * Z.pos my)%Z) by nia.
  assert (HR : ((q - 2 * P) * Z.pos my <= R * Z.pos my <= (q + P) * Z.pos my)%Z)
    by nia.
  assert (HP1 : (Z.pos my <= P * Z.pos my)%Z) by nia.
  destruct (scaled_bounds 4503599627370493 4503599627370497
              (R * Z.pos my) (Z.pos mx * 9007199254740992) (2 ^ (ex - 53))
              ltac:(apply Qlt_le_weak, pow2_pos) ltac:(lia) ltac:(lia))
    as [B1 B2].
  assert (EX : SF2Q (S754_finite false mx ex)
               == inject_Z (Z.pos mx * 9007199254740992) * 2 ^ (ex - 53)).
  { cbn [SF2Q]. cbv zeta.
    replace ex with (ex - 53 + 53)%Z at 1 by lia.
    rewrite pow2_add, inject_Z_mult, (pow2_inject 53) by lia.
    change (2 ^ 53)%Z with 9007199254740992%Z. ring. }
  assert (ER : SF2Q (S754_finite false mr (ex - ey - 53 + k))
               * SF2Q (S754_finite false my ey)
               == inject_Z (R * Z.pos my) * 2 ^ (ex - 53)).
  { rewrite (value_of_finite mr (ex - ey - 53) k ltac:(lia)). fold R.
    cbn [SF2Q]. cbv zeta.
    replace (ex - 53)%Z with (ex - ey - 53 + ey)%Z by lia.
    rewrite pow2_add, inject_Z_mult. ring. }
  rewrite ER, EX.
  split.
  - eapply Qle_trans; [|exact B1]. apply Qmult_le_compat_r.
    + apply Qle_bool_imp_le. reflexivity.
    + apply Qmult_le_0_compat; [apply inject_nonneg; lia|apply Qlt_le_weak, pow2_pos].
  - eapply Qle_trans; [exact B2|]. apply Qmult_le_compat_r.
    + apply Qle_bool_imp_le. reflexivity.
    + apply Qmult_le_0_compat; [apply inject_nonneg; lia|apply Qlt_le_weak, pow2_pos].
Qed.

End RoundingQ.

Module FloatError.
Import PyFloat FloatValue.

#[local] Open Scope Q_scope.

Lemma Qmult_le_l_weak (x y z : Q) : 0 <= z -> x <= y -> z * x <= z * y.
Proof.
  intros Hz H. rewrite !(Qmult_comm z). now apply Qmult_le_compat_r.
Qed.

Lemma within_mul (l1 h1 l2 h2 a A b B : Q) :
  0 <= l1 -> 0 <= l2 -> 0 <= A -> 0 <= B ->
  within l1 h1 a A -> within l2 h2 b B ->
  within (l1 * l2) (h1 * h2) (a * b) (A * B).
Proof.
  intros Hl1 Hl2 HA HB [La Ha] [Lb Hb].
  assert (0 <= l1 * A) by now apply Qmult_le_0_compat.
  assert (0 <= l2 * B) by now apply Qmult_le_0_compat.
  assert (0 <= a) by lra. assert (0 <= b) by lra.
  split; nra.
Qed.

Lemma within_trans (l1 h1 l2 h2 a b c : Q) :
  0 <= l1 -> 0 <= h1 -> 0 <= c ->
  within l1 h1 a b -> within l2 h2 b c ->
  within (l1 * l2) (h1 * h2) a c.
Proof.
  intros Hl1 Hh1 Hc [La Ha] [Lb Hb]. split; nra.
Qed.

(** From bounds on a product to bounds on a factor. *)
Lemma within_cancel (l1 h1 l2 h2 lo hi f t V W : Q) :
  0 < l2 -> 0 < W -> 0 <= V -> 0 <= l1 -> 0 <= f ->
  within l1 h1 (f * t) (W * V) -> within l2 h2 t W ->
  lo * h2 <= l1 -> h1 <= hi * l2 ->
  within lo hi f V.
Proof.
  intros Hl2 HW HV Hl1 Hf [L1 H1] [L2 H2] Hlo Hhi.
  assert (HlW : 0 < l2 * W) by (apply Qmult_lt_0_compat; assumption).
  assert (Ht : 0 < t) by lra.
  assert (HhW : 0 < h2 * W) by lra.
  assert (HWV : 0 <= W * V) by (apply Qmult_le_0_compat; lra).
  split.
  - apply (Qmult_le_r _ _ (h2 * W) HhW).
    assert (E1 : f * t <= f * (h2 * W)) by (apply Qmult_le_l_weak; assumption).
    assert (E2 : lo * h2 * (W * V) <= l1 * (W * V))
      by (apply Qmult_le_compat_r; assumption).
    lra.
  - apply (Qmult_le_r _ _ (l2 * W) HlW).
    assert (E1 : f * (l2 * W) <= f * t) by (apply Qmult_le_l_weak; assumption).
    assert (E2 : h1 * (W * V) <= hi * l2 * (W * V))
      by (apply Qmult_le_compat_r; assumption).
    lra.
Qed.

Lemma normal_in_spec (lo hi : Z) (x : float) :
  normal_in lo hi x = true ->
  exists (m : positive) (e : Z),
    Prim2SF x = S754_finite false m e
    /\ Zpos (digits2_pos m) = 53%Z /\ (lo <= e <= hi)%Z.
Proof.
  unfold normal_in, SFnormal_in.
  destruct (Prim2SF x) as [| | |[] m e]; try discriminate.
  intros H. apply andb_true_iff in H as [H H3]. apply andb_true_iff in H as [H1 H2].
  exists m, e. split; [reflexivity|]. lia.
Qed.

Lemma normal_in_intro (lo hi : Z) (x : float) (m : positive) (e : Z) :
  Prim2SF x = S754_finite false m e ->
  Zpos (digits2_pos m) = 53%Z -> (lo <= e <= hi)%Z ->
  normal_in lo hi x = true.
Proof.
  intros E D He. unfold normal_in, SFnormal_in. rewrite E, D.
  apply andb_true_iff. split; [apply andb_true_iff; split|]; lia.
Qed.

Lemma normal_in_pos (lo hi : Z) (x : float) :
  normal_in lo hi x = true -> 0 < F2Q x.
Proof.
  intros H. destruct (normal_in_spec _ _ _ H) as (m & e & E & _).
  unfold F2Q. rewrite E. cbn [SF2Q]. cbv zeta.
  apply Qmult_lt_0_compat; [reflexivity|apply RoundingQ.pow2_pos].
Qed.

(** A float between two normal floats above zero is one, with an exponent
    between theirs. *)
Lemma between_normal (lo hi x : float) (ml : positive) (el : Z)
    (mh : positive) (eh : Z) :
  Prim2SF lo = S754_finite false ml el ->
  Prim2SF hi = S754_finite false mh eh ->
  (-1074 < el)%Z ->
  (lo <=? x)%float = true -> (x <=? hi)%float = true ->
  normal_in el eh x = true.
Proof.
  intros El Eh Hel. rewrite !FloatAxioms.leb_spec, El, Eh.
  pose proof (Prim2SF_valid x) as V. unfold normal_in.
  destruct (Prim2SF x) as [s|s| |s m e]; try destruct s; try discriminate.
  unfold SFleb. cbn [SFcompare]. intros H1 H2.
  assert (He : (el <= e <= eh)%Z).
  { destruct (Z.compare_spec el e), (Z.compare_spec e eh);
      try discriminate; lia. }
  cbn [valid_binary] in V. apply FloatFacts.valid_exponent in V as [Ee _].
  cbn [SFnormal_in]. apply andb_true_iff. split; [apply andb_true_iff; split|]; lia.
Qed.

(** The product of two normal floats above zero. *)
Lemma mul_close (a b : float) (la ha lb hb : Z) :
  normal_in la ha a = true -> normal_in lb hb b = true ->
  (-1126 <= la + lb)%Z -> (ha + hb <= 917)%Z ->
  normal_in (la + lb + 52) (ha + hb + 54) (a * b) = true
  /\ within (1 - 2 * ulp) (1 + ulp) (F2Q (a * b)) (F2Q a * F2Q b).
Proof.
  intros Ha Hb Hlo Hhi.
  destruct (normal_in_spec _ _ _ Ha) as (ma & ea & Ea & Da & Ra).
  destruct (normal_in_spec _ _ _ Hb) as (mb & eb & Eb & Db & Rb).
  destruct (RoundingQ.SFmul_close ma ea mb eb Da Db ltac:(lia))
    as (mr & er & Er & Dr & Rr & B).
  assert (E : Prim2SF (a * b) = S754_finite false mr er)
    by (rewrite mul_spec, Ea, Eb; exact Er).
  split.
  - apply (normal_in_intro _ _ _ mr er E Dr). lia.
  - unfold F2Q. rewrite E, Ea, Eb. exact B.
Qed.

(** The quotient of two normal floats above zero. *)
Lemma div_close (a b : float) (la ha lb hb : Z) :
  normal_in la ha a = true -> normal_in lb hb b = true ->
  (-1021 <= la - hb)%Z -> (ha - lb <= 1022)%Z ->
  normal_in (la - hb - 53) (ha - lb - 51) (a / b) = true
  /\ within (1 - 3 * ulp) (1 + ulp) (F2Q (a / b) * F2Q b) (F2Q a).
Proof.
  intros Ha Hb Hlo Hhi.
  destruct (normal_in_spec _ _ _ Ha) as (ma & ea & Ea & Da & Ra).
  destruct (normal_in_spec _ _ _ Hb) as (mb & eb & Eb & Db & Rb).
  destruct (RoundingQ.SFdiv_close ma ea mb eb Da Db ltac:(lia))
    as (mr & er & Er & Dr & Rr & B).
  assert (E : Prim2SF (a / b) = S754_finite false mr er)
    by (rewrite div_spec, Ea, Eb; exact Er).
  split.
  - apply (normal_in_intro _ _ _ mr er E Dr). lia.
  - unfold F2Q. rewrite E, Ea, Eb. exact B.
Qed.

End FloatError.

(** ** Fuel per hour, up to rounding *)

Module FuelRounding.
Import FuelCalculator PyFloat FloatValue FloatError.

#[local] Open Scope Q_scope.

(** Every profile of the table has a normal fuel rate between 0.5 and 8 and
    a normal cruise speed between 128 and 1024. *)
Lemma selected_profile_normal (aircraft_type : string) :
  normal_in (-53) (-50) (fuel_rate (selected_profile aircraft_type)) = true
  /\ normal_in (-45) (-43) (cruise_speed (selected_profile aircraft_type)) = true.
Proof.
  apply FuelProps.selected_profile_ind. intros k p Hp.
  profile_cases Hp; split; reflexivity.
Qed.

Lemma normal_in_ltb_0 (lo hi : Z) (x : float) :
  normal_in lo hi x = true -> (0 <? x)%float = true.
Proof.
  intros H. destruct (normal_in_spec _ _ _ H) as (m & e & E & _).
  rewrite FloatAxioms.ltb_spec, E. reflexivity.
Qed.

Lemma between_spec (lo hi x : float) (ml : positive) (el : Z)
    (mh : positive) (eh : Z) :
  Prim2SF lo = S754_finite false ml el ->
  Prim2SF hi = S754_finite false mh eh ->
  (-1074 < el)%Z ->
  between lo hi x = true -> normal_in el eh x = true.
Proof.
  intros El Eh Hel H. apply andb_true_iff in H as [H1 H2].
  exact (between_normal lo hi x ml el mh eh El Eh Hel H1 H2).
Qed.

Lemma distance_range_normal (d : float) :
  between 1e-100 1e100 d = true -> normal_in (-385) 280 d = true.
Proof.
  apply (between_spec 1e-100 1e100 d 7880401239278896 (-385) 5147557589468029 280);
    [reflexivity|reflexivity|lia].
Qed.

Lemma factor_range_normal (w : float) :
  between 1e-50 1e50 w = true -> normal_in (-219) 114 w = true.
Proof.
  apply (between_spec 1e-50 1e50 w 8424983333484575 (-219) 4814824860968090 114);
    [reflexivity|reflexivity|lia].
Qed.

Lemma within_refl (x : Q) : within 1 1 x x.
Proof. split; lra. Qed.

Lemma fuel_per_hour_close
    (aircraft_type : string) (d wind_factor payload_factor : float) :
  between 1e-100 1e100 d = true ->
  between 1e-50 1e50 wind_factor = true ->
  between 1e-50 1e50 payload_factor = true ->
  let profile := selected_profile aircraft_type in
  let exact := F2Q (cruise_speed profile) * F2Q (fuel_rate profile)
               * F2Q wind_factor * F2Q payload_factor / 100 in
  within (1 - eps) (1 + eps)
    (F2Q (fuel_per_hour (consumption_of profile d wind_factor payload_factor)))
    exact.
Proof.
  intros Hd Hw Hp. cbn zeta.
  apply distance_range_normal in Hd.
  apply factor_range_normal in Hw. apply factor_range_normal in Hp.
  destruct (selected_profile_normal aircraft_type) as [Hr Hc].
  set (profile := selected_profile aircraft_type) in *.
  cbn [consumption_of fuel_per_hour].
  set (rate := fuel_rate profile) in *. set (cs := cruise_speed profile) in *.
  assert (H100 : normal_in (-46) (-46) 100 = true) by reflexivity.
  destruct (mul_close _ _ _ _ _ _ Hr Hw ltac:(lia) ltac:(lia)) as [Nrw Qrw].
  destruct (mul_close _ _ _ _ _ _ Nrw Hp ltac:(lia) ltac:(lia)) as [Na Qa].
  destruct (div_close _ _ _ _ _ _ Hd H100 ltac:(lia) ltac:(lia)) as [Nx Qx].
  destruct (mul_close _ _ _ _ _ _ Nx Na ltac:(lia) ltac:(lia)) as [NT QT].
  destruct (div_close _ _ _ _ _ _ Hd Hc ltac:(lia) ltac:(lia)) as [Nt Qt].
  destruct (div_close _ _ _ _ _ _ NT Nt ltac:(lia) ltac:(lia)) as [Nf Qf].
  rewrite (normal_in_ltb_0 _ _ _ Nt).
  pose proof (normal_in_pos _ _ _ Hr) as Pr.
  pose proof (normal_in_pos _ _ _ Hc) as Pc.
  pose proof (normal_in_pos _ _ _ Hw) as Pw.
  pose proof (normal_in_pos _ _ _ Hp) as Pp.
  pose proof (normal_in_pos _ _ _ Hd) as Pd.
  pose proof (normal_in_pos _ _ _ Nrw) as Prw.
  pose proof (normal_in_pos _ _ _ Na) as Pa.
  pose proof (normal_in_pos _ _ _ Nx) as Px.
  pose proof (normal_in_pos _ _ _ NT) as PT.
  pose proof (normal_in_pos _ _ _ Nt) as Pt.
  pose proof (normal_in_pos _ _ _ Nf) as Pf.
  assert (E100 : F2Q 100 == 100) by (unfold Qeq; vm_compute; reflexivity).
  set (R := F2Q rate) in *. set (C := F2Q cs) in *.
  set (W := F2Q wind_factor) in *. set (P := F2Q payload_factor) in *.
  set (D := F2Q d) in *.
  set (RW := F2Q (rate * wind_factor)) in *.
  set (A := F2Q (rate * wind_factor * payload_factor)) in *.
  set (X := F2Q (d / 100)) in *.
  set (T := F2Q (d / 100 * (rate * wind_factor * payload_factor))) in *.
  set (t := F2Q (d / cs)) in *.
  set (f := F2Q (d / 100 * (rate * wind_factor * payload_factor) / (d / cs))) in *.
  set (l2 := 1 - 2 * ulp) in *. set (l3 := 1 - 3 * ulp) in *.
  set (h := 1 + ulp) in *.
  assert (Hl2 : 0 <= l2) by (apply Qle_bool_imp_le; reflexivity).
  assert (Hl3 : 0 <= l3) by (apply Qle_bool_imp_le; reflexivity).
  assert (Hl3' : 0 < l3) by reflexivity.
  assert (Hh : 0 <= h) by (apply Qle_bool_imp_le; reflexivity).
  assert (PRW : 0 <= R * W) by (apply Qmult_le_0_compat; lra).
  assert (PRWP : 0 <= R * W * P) by (apply Qmult_le_0_compat; lra).
  set (F100 := F2Q 100) in *.
  assert (P100 : 0 <= F100) by lra.
  assert (PD : 0 <= D * (R * W * P)) by (apply Qmult_le_0_compat; lra).
  assert (H1 : 0 <= l2 * 1) by lra.
  assert (H1' : 0 <= h * 1) by lra.
  assert (H1'' : 0 <= l3 * 1) by lra.
  (* the adjusted rate *)
  assert (SA : within (l2 * (l2 * 1)) (h * (h * 1)) A (R * W * P)).
  { apply (within_trans l2 h (l2 * 1) (h * 1) A (RW * P) (R * W * P));
      [exact Hl2|exact Hh|exact PRWP|exact Qa|].
    apply within_mul; [exact Hl2|lra|exact PRW|lra|exact Qrw|apply within_refl]. }
  assert (HLA : 0 <= l2 * (l2 * 1)) by (apply Qmult_le_0_compat; assumption).
  assert (HHA : 0 <= h * (h * 1)) by (apply Qmult_le_0_compat; assumption).
  (* the total fuel, times 100 *)
  assert (SXA : within (l3 * (l2 * (l2 * 1))) (h * (h * (h * 1)))
                  (X * F100 * A) (D * (R * W * P))).
  { apply within_mul; [exact Hl3|exact HLA|lra|exact PRWP|exact Qx|exact SA]. }
  assert (ST : within (l2 * 1) (h * 1) (T * F100) (X * F100 * A)).
  { assert (ST0 : within (l2 * 1) (h * 1) (T * F100) (X * A * F100)).
    { apply within_mul; [exact Hl2|lra| |exact P100|exact QT|apply within_refl].
      apply Qmult_le_0_compat; lra. }
    destruct ST0 as [ST1 ST2]. split; lra. }
  assert (STD : within (l2 * 1 * (l3 * (l2 * (l2 * 1))))
                  (h * 1 * (h * (h * (h * 1)))) (T * F100) (D * (R * W * P))).
  { apply (within_trans _ _ _ _ _ (X * F100 * A));
      [exact H1|exact H1'|exact PD|exact ST|exact SXA]. }
  (* fuel per hour times flight time *)
  assert (SF : within (l3 * 1) (h * 1) (f * t * F100) (T * F100)).
  { apply within_mul; [exact Hl3|lra|lra|exact P100|exact Qf|apply within_refl]. }
  set (L := l3 * 1 * (l2 * 1 * (l3 * (l2 * (l2 * 1))))).
  set (H := h * 1 * (h * 1 * (h * (h * (h * 1))))).
  assert (SFD : within L H (f * t * F100) (D * (R * W * P))).
  { apply (within_trans _ _ _ _ _ (T * F100));
      [exact H1''|exact H1'|exact PD|exact SF|exact STD]. }
  assert (HL : 0 <= L) by (apply Qle_bool_imp_le; reflexivity).
  assert (SFC : within L H (f * F100 * (t * C)) (D * (R * W * P * C))).
  { assert (S0 : within (L * 1) (H * 1) (f * t * F100 * C) (D * (R * W * P) * C)).
    { apply within_mul; [exact HL|lra|exact PD|lra|exact SFD|apply within_refl]. }
    destruct S0 as [S1 S2]. split; lra. }
  assert (SG : within (1 - eps) (1 + eps) (f * F100) (R * W * P * C)).
  { apply (within_cancel L H l3 h (1 - eps) (1 + eps) (f * F100) (t * C)
             (R * W * P * C) D);
      [exact Hl3'|exact Pd| | | |exact SFC|exact Qt| | ].
    - apply Qmult_le_0_compat; lra.
    - exact HL.
    - apply Qmult_le_0_compat; lra.
    - apply Qle_bool_imp_le. reflexivity.
    - apply Qle_bool_imp_le. reflexivity. }
  assert (EF : f * F100 == f * 100)
    by (apply Qmult_comp; [apply Qeq_refl|exact E100]).
  destruct SG as [G1 G2]. split.
  - apply (Qmult_le_r _ _ 100); [reflexivity|].
    apply (Qle_trans _ ((1 - eps) * (R * W * P * C))); [|lra].
    apply Qle_lteq. right. field.
  - apply (Qmult_le_r _ _ 100); [reflexivity|].
    apply (Qle_trans _ ((1 + eps) * (R * W * P * C))); [lra|].
    apply Qle_lteq. right. field.
Qed.

(** C9 (amended): the fuel_per_hour returned by [calculate_fuel_consumption]
    is independent of the distance up to rounding only.  For wind and
    payload factors between 1e-50 and 1e50 and distances between 1e-100 and
    1e100 no intermediate result underflows or overflows, the call returns,
    and fuel_per_hour is within a relative error of 2^-48 of
    cruise_speed * fuel_rate * wind_factor * payload_factor / 100, the
    product and quotient taken exactly on the values of the floats; so two
    such distances give values of fuel_per_hour that differ by 2^-47 of it
    at most. *)
Theorem fuel_per_hour_within_rounding
    (aircraft_type : string) (wind_factor payload_factor d1 d2 : float) :
  between 1e-50 1e50 wind_factor = true ->
  between 1e-50 1e50 payload_factor = true ->
  between 1e-100 1e100 d1 = true ->
  between 1e-100 1e100 d2 = true ->
  let profile := selected_profile aircraft_type in
  let exact := F2Q (cruise_speed profile) * F2Q (fuel_rate profile)
               * F2Q wind_factor * F2Q payload_factor / 100 in
  exists r1 r2 : FuelConsumption,
    calculate_fuel_consumption d1 aircraft_type wind_factor payload_factor = Ok r1
    /\ calculate_fuel_consumption d2 aircraft_type wind_factor payload_factor = Ok r2
    /\ (1 - eps) * exact <= F2Q (fuel_per_hour r1) <= (1 + eps) * exact
    /\ (1 - eps) * exact <= F2Q (fuel_per_hour r2) <= (1 + eps) * exact
    /\ Qabs (F2Q (fuel_per_hour r1) - F2Q (fuel_per_hour r2)) <= 2 * eps * exact.
Proof.
  intros Hw Hp H1 H2. cbn zeta.
  rewrite !FuelProps.calculate_fuel_consumption_eq.
  eexists _, _. split; [reflexivity|]. split; [reflexivity|].
  pose proof (fuel_per_hour_close aircraft_type d1 _ _ H1 Hw Hp) as [L1 U1].
  pose proof (fuel_per_hour_close aircraft_type d2 _ _ H2 Hw Hp) as [L2 U2].
  cbn zeta in L1, U1, L2, U2.
  repeat split; try assumption.
  apply Qabs_Qle_condition. split; lra.
Qed.

Lemma fuel_per_hour_within_rounding_witness :
  between 1e-50 1e50 1.1 = true /\ between 1e-50 1e50 0.9 = true
  /\ between 1e-100 1e100 1000 = true /\ between 1e-100 1e100 47 = true
  /\ exists r1 r2 : FuelConsumption,
       calculate_fuel_consumption 1000 "boeing_737" 1.1 0.9 = Ok r1
       /\ calculate_fuel_consumption 47 "boeing_737" 1.1 0.9 = Ok r2
       /\ Qabs (F2Q (fuel_per_hour r1) - F2Q (fuel_per_hour r2))
          <= 2 * eps * (F2Q 800 * F2Q 2.5 * F2Q 1.1 * F2Q 0.9 / 100).
Proof.
  repeat (split; [reflexivity|]).
  destruct (fuel_per_hour_within_rounding "boeing_737" 1.1 0.9 1000 47
              eq_refl eq_refl eq_refl eq_refl)
    as (r1 & r2 & E1 & E2 & _ & _ & Hd).
  exists r1, r2. repeat split; assumption.
Defined.

End FuelRounding.
